(** * Google Photos takeout EXIF processor: sidecar resolution, placement
    and audit logic.

    Shallow embedding of [google_photos_processor.py] (the pipeline),
    [json_matcher.py] (the stand-alone matcher variant) and [validate.py]
    (the auditor).  File names are ASCII strings; Python's [str.lower] and
    [re.IGNORECASE] are modelled by ASCII case folding.  Regular expressions
    are modelled by the (deterministic) split they produce under Python's
    [re] semantics: [.] does not match a newline, [$] matches at the end or
    just before a final newline, greedy groups take the longest success. *)

From Stdlib Require Import String Ascii List ZArith Bool Lia.

Set Warnings "-register-all".
Import ListNotations.

Open Scope string_scope.

(* ------------------------------------------------------------------ *)
(** ** Python string primitives *)

Definition lower_char (c : ascii) : ascii :=
  let n := nat_of_ascii c in
  if (65 <=? n)%nat && (n <=? 90)%nat then ascii_of_nat (n + 32) else c.

(** [str.lower] *)
Fixpoint lower (s : string) : string :=
  match s with
  | EmptyString => EmptyString
  | String c s' => String (lower_char c) (lower s')
  end.

(** a string of 7-bit ASCII characters, where [lower] is Python's
    [str.lower] and [re.IGNORECASE] folds the same letters *)
Definition is_ascii7 (s : string) : bool :=
  forallb (fun c => (nat_of_ascii c <? 128)%nat) (list_ascii_of_string s).

(** [s.startswith(p)] *)
Definition startswith (s p : string) : bool := String.prefix p s.

(** [s.endswith(suf)] *)
Definition endswith (s suf : string) : bool :=
  let n := String.length s in
  let m := String.length suf in
  (m <=? n)%nat && String.eqb (substring (n - m) m s) suf.

(** [s[:k]] for [k >= 0] *)
Definition take_prefix (k : nat) (s : string) : string := substring 0 k s.

(** [s[:-k]] for [k >= 0] *)
Definition drop_suffix (k : nat) (s : string) : string :=
  substring 0 (String.length s - k) s.

(** [s[k:]] *)
Definition drop_prefix (k : nat) (s : string) : string :=
  substring k (String.length s - k) s.

Definition nl : ascii := ascii_of_nat 10.

(** no newline in [s]: what [.*] / [.+] may consume *)
Fixpoint no_nl (s : string) : bool :=
  match s with
  | EmptyString => true
  | String c s' => negb (Ascii.eqb c nl) && no_nl s'
  end.

Definition is_digit (c : ascii) : bool :=
  let n := nat_of_ascii c in (48 <=? n)%nat && (n <=? 57)%nat.

(** index of the last ['.'] ([str.rfind('.')], [None] for [-1]) *)
Fixpoint rfind_dot_from (i : nat) (s : string) (acc : option nat) : option nat :=
  match s with
  | EmptyString => acc
  | String c s' =>
      rfind_dot_from (S i) s' (if Ascii.eqb c "." then Some i else acc)
  end.

Definition rfind_dot (s : string) : option nat := rfind_dot_from 0 s None.

(** The tail [(\.[^.]+)$] of a pattern: the extension starts at the last
    dot and holds at least one more character.  Returns (before, ext). *)
Definition last_dot_split (s : string) : option (string * string) :=
  match rfind_dot s with
  | Some i =>
      if (i + 2 <=? String.length s)%nat
      then Some (take_prefix i s, drop_prefix i s)
      else None
  | None => None
  end.

Fixpoint span_digits (l : list ascii) : list ascii * list ascii :=
  match l with
  | c :: l' => if is_digit c then let (d, r) := span_digits l' in (c :: d, r)
               else ([], l)
  | [] => ([], [])
  end.

(** [pre] = [A ( D )] with [D] a non-empty digit run; returns (A, D). *)
Definition paren_tail (pre : string) : option (string * string) :=
  match rev (list_ascii_of_string pre) with
  | c :: r =>
      if Ascii.eqb c ")" then
        match span_digits r with
        | (d :: ds, o :: g) =>
            if Ascii.eqb o "(" then
              Some (string_of_list_ascii (rev g),
                    string_of_list_ascii (rev (d :: ds)))
            else None
        | _ => None
        end
      else None
  | [] => None
  end.

(** [re.match(r'^(.+)\((\d+)\)(\.[^.]+)$', name)]: groups 1, 2, 3 *)
Definition paren_split (name : string) : option (string * string * string) :=
  match last_dot_split name with
  | Some (pre, ext) =>
      match paren_tail pre with
      | Some (g1, num) =>
          if (1 <=? String.length g1)%nat && no_nl g1
          then Some (g1, num, ext) else None
      | None => None
      end
  | None => None
  end.

(** [re.match(r'^(G1)-edited(\.[^.]+)$', name, re.IGNORECASE)] where the
    group G1 is [.*]: groups 1, 2 *)
Definition edited_split (name : string) : option (string * string) :=
  match last_dot_split name with
  | Some (pre, ext) =>
      if endswith (lower pre) "-edited" then
        let g1 := drop_suffix 7 pre in
        if no_nl g1 then Some (g1, ext) else None
      else None
  | None => None
  end.

(** [X$] for a literal tail [X] (compared case-insensitively):
    the text before [X], with [$] at the end or before a final newline. *)
Definition before_tail_ci (s x : string) : option string :=
  if endswith (lower s) (lower x) then Some (drop_suffix (String.length x) s)
  else if endswith (lower s) (lower x ++ String nl EmptyString)
  then Some (drop_suffix (S (String.length x)) s)
  else None.

(** [re.match(r'^(.+)\(\d+\)\.mp4$', name, re.IGNORECASE)]: group 1 *)
Definition live_dup_split (name : string) : option string :=
  match before_tail_ci name ".mp4" with
  | Some pre =>
      match paren_tail pre with
      | Some (g1, _) =>
          if (1 <=? String.length g1)%nat && no_nl g1 then Some g1 else None
      | None => None
      end
  | None => None
  end.

(** [re.match(r'^(G1)\.png$', name, re.IGNORECASE)] where the group G1
    is [.*]: group 1 *)
Definition png_split (name : string) : option string :=
  match before_tail_ci name ".png" with
  | Some g1 => if no_nl g1 then Some g1 else None
  | None => None
  end.

(** [re.match(r'^(G1)(\.[^.]+)$', name, re.IGNORECASE)] where the group
    G1 is [.*]: groups 1, 2 *)
Definition ext_split (name : string) : option (string * string) :=
  match last_dot_split name with
  | Some (g1, ext) => if no_nl g1 then Some (g1, ext) else None
  | None => None
  end.

(** [re.compile(rf'^{re.escape(lit)}.*{re.escape(tail)}$', re.IGNORECASE)
    .match(s)]: a literal prefix, any newline-free middle, a literal tail. *)
Definition lit_dotstar_tail (lit tail s : string) : bool :=
  startswith (lower s) (lower lit) &&
  match before_tail_ci (drop_prefix (String.length lit) s) tail with
  | Some mid => no_nl mid
  | None => false
  end.

(* ------------------------------------------------------------------ *)
(** ** JSON values, as [json.loads] returns them *)

Inductive json : Type :=
  | JNull                           (* None *)
  | JBool (b : bool)
  | JInt (z : Z)
  | JStr (s : string)
  | JArr (l : list json)
  | JObj (kvs : list (string * json)).

(** exceptions that escape the code paths modelled *)
Inductive exn : Type := ValueError | TypeError | AttributeError | OverflowError | OSError.

Inductive res (A : Type) : Type :=
  | Ok (a : A)
  | Exc (e : exn).
Arguments Ok {A} a.
Arguments Exc {A} e.

Definition bind {A B} (m : res A) (k : A -> res B) : res B :=
  match m with Ok a => k a | Exc e => Exc e end.

Notation "'let*' x ':=' m 'in' k" := (bind m (fun x => k))
  (at level 200, x name, m at level 100, k at level 200).

(** Python truth value *)
Definition truthy (v : json) : bool :=
  match v with
  | JNull => false
  | JBool b => b
  | JInt z => negb (Z.eqb z 0)
  | JStr s => negb (String.eqb s "")
  | JArr l => negb (List.length l =? 0)%nat
  | JObj kvs => negb (List.length kvs =? 0)%nat
  end.

(** dictionary lookup; [json.loads] keeps the last of duplicate keys *)
Fixpoint assoc_last (k : string) (kvs : list (string * json)) : option json :=
  match kvs with
  | [] => None
  | (k', v) :: kvs' =>
      match assoc_last k kvs' with
      | Some w => Some w
      | None => if String.eqb k k' then Some v else None
      end
  end.

(** the value of [k] in a dict's items, or [default] *)
Definition lookup_or (kvs : list (string * json)) (k : string) (default : json) : json :=
  match assoc_last k kvs with Some v => v | None => default end.

(** [d.get(k, default)]: [AttributeError] when [d] is not a dict *)
Definition dict_get (d : json) (k : string) (default : json) : res json :=
  match d with
  | JObj kvs => Ok (lookup_or kvs k default)
  | _ => Exc AttributeError
  end.

(* ------------------------------------------------------------------ *)
(** ** Files *)

(** a path is its list of components; [Path.name] is the last one *)
Definition path := list string.
Definition name (p : path) : string := last p "".

(** a sidecar candidate: its path and its content as [json.loads] reads
    it ([None] when reading or parsing raises) *)
Record jfile := mkJ { jpath : path; jcontent : option json }.
Definition jname (j : jfile) : string := name (jpath j).

(** [_load_json] / [load_json]: every exception is caught, giving [None] *)
Definition load_json (j : jfile) : option json := jcontent j.

(** case-insensitive equality [a.lower() == b.lower()] *)
Definition ci_eq (a b : string) : bool := String.eqb (lower a) (lower b).

(** Rule 8 of the pipeline (rule 7 of [json_matcher]): the title field.
    Sidecars are loaded one after the other; the first list returned is
    the trace of the sidecars whose body was read.  The test
    [data and data.get('title') == name] raises [AttributeError] when the
    body is truthy but not a dict. *)
Definition title_matches (nm : string) (data : option json) : res bool :=
  match data with
  | None => Ok false
  | Some d =>
      if truthy d then
        let* t := dict_get d "title" JNull in
        Ok (match t with JStr s => String.eqb s nm | _ => false end)
      else Ok false
  end.

Fixpoint title_rule (nm : string) (js : list jfile) : list jfile * res (option jfile) :=
  match js with
  | [] => ([], Ok None)
  | j :: js' =>
      match title_matches nm (load_json j) with
      | Exc e => ([j], Exc e)
      | Ok true => ([j], Ok (Some j))
      | Ok false => let (tr, r) := title_rule nm js' in (j :: tr, r)
      end
  end.

(* ------------------------------------------------------------------ *)
(** ** The pipeline resolver [GooglePhotosProcessor._match_json] *)

Definition JSON_LENGTH_LIMIT : nat := 50.

Module Processor.

(** Rule 1 - Exact match *)
Definition rule1 (nm : string) (js : list jfile) : option jfile :=
  let exact := nm ++ ".json" in
  find (fun j => ci_eq (jname j) exact) js.

(** Rule 2 - Truncated match *)
Definition rule2 (nm : string) (js : list jfile) : option jfile :=
  let exact := nm ++ ".json" in
  if (JSON_LENGTH_LIMIT <? String.length exact)%nat then
    let trunc := take_prefix (JSON_LENGTH_LIMIT - 5) nm in
    find (fun j => startswith (lower (jname j)) (lower trunc)) js
  else None.

(** Rule 3 - Parenthetical match *)
Definition rule3 (nm : string) (js : list jfile) : option jfile :=
  match paren_split nm with
  | Some (g1, num, ext) =>
      let alt := g1 ++ ext ++ "(" ++ num ++ ").json" in
      find (fun j => ci_eq (jname j) alt) js
  | None => None
  end.

(** Rule 4 - Remove '-edited' from filename if present *)
Definition rule4 (nm : string) (js : list jfile) : option jfile :=
  match edited_split nm with
  | Some (g1, ext) =>
      let rule4_json := (g1 ++ ext) ++ ".json" in
      find (fun j => ci_eq (jname j) rule4_json) js
  | None => None
  end.

(** the JPG pass, then the HEIC pass, of rules 5 and 6 *)
Definition companion (base : string) (js : list jfile) : option jfile :=
  let jpg_json_name := (base ++ ".JPG") ++ ".json" in
  let heic_json_name := (base ++ ".HEIC") ++ ".json" in
  match find (fun j => ci_eq (jname j) jpg_json_name) js with
  | Some j => Some j
  | None => find (fun j => ci_eq (jname j) heic_json_name) js
  end.

(** Rule 5 - MP4/JPG or MP4/HEIC fallback *)
Definition rule5 (nm : string) (js : list jfile) : option jfile :=
  if endswith (lower nm) ".mp4" then companion (drop_suffix 4 nm) js else None.

(** Rule 6 - (1).mp4/JPG or (1).mp4/HEIC fallback *)
Definition rule6 (nm : string) (js : list jfile) : option jfile :=
  match live_dup_split nm with
  | Some base => companion base js
  | None => None
  end.

(** Rule 7 - PNG fallback (case insensitive) *)
Definition rule7 (nm : string) (js : list jfile) : option jfile :=
  match png_split nm with
  | Some base =>
      let png_json_name := base ++ ".json" in
      find (fun j => ci_eq (jname j) png_json_name) js
  | None => None
  end.

Definition tag (k : nat) (r : res (option jfile)) : res (option (jfile * nat)) :=
  let* o := r in Ok (option_map (fun j => (j, k)) o).

(** [_match_json media json_files]: the returned one-element list [[j]] is
    [Some (j, k)] with [k] the rule whose counter is incremented, [[]] is
    [None]; the first component is the trace of sidecar bodies read. *)
Definition _match_json (media : path) (json_files : list jfile)
  : list jfile * res (option (jfile * nat)) :=
  let nm := name media in
  match rule1 nm json_files with Some j => ([], Ok (Some (j, 1))) | None =>
  match rule2 nm json_files with Some j => ([], Ok (Some (j, 2))) | None =>
  match rule3 nm json_files with Some j => ([], Ok (Some (j, 3))) | None =>
  match rule4 nm json_files with Some j => ([], Ok (Some (j, 4))) | None =>
  match rule5 nm json_files with Some j => ([], Ok (Some (j, 5))) | None =>
  match rule6 nm json_files with Some j => ([], Ok (Some (j, 6))) | None =>
  match rule7 nm json_files with Some j => ([], Ok (Some (j, 7))) | None =>
    let (tr, r) := title_rule nm json_files in (tr, tag 8 r)
  end end end end end end end.

End Processor.

(* ------------------------------------------------------------------ *)
(** ** The stand-alone matcher [json_matcher.match_json] *)

Module Matcher.

(** Rule 1 - Direct match (filename.ext*.json) *)
Definition rule1 (nm : string) (js : list jfile) : option jfile :=
  find (fun j => lit_dotstar_tail nm ".json" (jname j)) js.

(** Rule 2 - Truncated match *)
Definition rule2 (limit : nat) (nm : string) (js : list jfile) : option jfile :=
  if (limit <? String.length (nm ++ ".json"))%nat then
    let trunc := take_prefix (limit - 5) nm in
    find (fun j => startswith (lower (jname j)) (lower trunc)) js
  else None.

(** Rule 3 - Relaxed parenthetical match *)
Definition rule3 (nm : string) (js : list jfile) : option jfile :=
  match paren_split nm with
  | Some (base, num, ext) =>
      find (fun j => lit_dotstar_tail (base ++ ext) ("(" ++ num ++ ").json") (jname j)) js
  | None => None
  end.

(** Rule 4 - Remove '-edited' from filename if present *)
Definition rule4 (nm : string) (js : list jfile) : option jfile :=
  match edited_split nm with
  | Some (g1, ext) => find (fun j => lit_dotstar_tail (g1 ++ ext) ".json" (jname j)) js
  | None => None
  end.

Definition prefix_json (base : string) (j : jfile) : bool :=
  startswith (lower (jname j)) (lower base) && endswith (lower (jname j)) ".json".

(** Rule 5 - Live photos *)
Definition rule5 (nm : string) (js : list jfile) : option jfile :=
  if endswith (lower nm) ".mp4" then find (prefix_json (drop_suffix 4 nm)) js
  else None.

(** Rule 6 - Live photos duplicates *)
Definition rule6 (nm : string) (js : list jfile) : option jfile :=
  match live_dup_split nm with
  | Some base => find (prefix_json base) js
  | None => None
  end.

(** Rule 8 - filename.ext to filename*.json *)
Definition rule8 (nm : string) (js : list jfile) : option jfile :=
  match ext_split nm with
  | Some (base, _) => find (fun j => lit_dotstar_tail base ".json" (jname j)) js
  | None => None
  end.

(** [match_json media json_files json_length_limit]; rule 7 is the title
    rule, read before the file-name rule 8. *)
Definition match_json (media : path) (json_files : list jfile) (limit : nat)
  : list jfile * res (option (jfile * nat)) :=
  let nm := name media in
  match rule1 nm json_files with Some j => ([], Ok (Some (j, 1))) | None =>
  match rule2 limit nm json_files with Some j => ([], Ok (Some (j, 2))) | None =>
  match rule3 nm json_files with Some j => ([], Ok (Some (j, 3))) | None =>
  match rule4 nm json_files with Some j => ([], Ok (Some (j, 4))) | None =>
  match rule5 nm json_files with Some j => ([], Ok (Some (j, 5))) | None =>
  match rule6 nm json_files with Some j => ([], Ok (Some (j, 6))) | None =>
    match title_rule nm json_files with
    | (tr, Ok (Some j)) => (tr, Ok (Some (j, 7)))
    | (tr, Exc e) => (tr, Exc e)
    | (tr, Ok None) =>
        match rule8 nm json_files with
        | Some j => (tr, Ok (Some (j, 8)))
        | None => (tr, Ok None)
        end
    end
  end end end end end end.

End Matcher.

(* ------------------------------------------------------------------ *)
(** ** The auditor's resolver [GooglePhotosValidator._find_json_for_media] *)

Module Validator.

(** Rule 1: Exact match (case insensitive) *)
Definition rule1 (media_name : string) (js : list jfile) : option jfile :=
  let exact_json := media_name ++ ".json" in
  find (fun j => ci_eq (jname j) exact_json) js.

(** Rule 2: Truncated match (50 char limit, case insensitive); the sidecar
    must also end in [.json] and its stem must be a prefix of the name. *)
Definition rule2 (media_name : string) (js : list jfile) : option jfile :=
  let exact_json := media_name ++ ".json" in
  if (JSON_LENGTH_LIMIT <? String.length exact_json)%nat then
    let truncated := take_prefix (JSON_LENGTH_LIMIT - 5) media_name in
    find (fun j =>
      startswith (lower (jname j)) (lower truncated) &&
      endswith (lower (jname j)) ".json" &&
      startswith (lower media_name) (lower (drop_suffix 5 (jname j)))) js
  else None.

(** Rule 3: Parenthetical match (case insensitive) *)
Definition rule3 (media_name : string) (js : list jfile) : option jfile :=
  match paren_split media_name with
  | Some (base_name, number, extension) =>
      let alt_json := base_name ++ extension ++ "(" ++ number ++ ").json" in
      find (fun j => ci_eq (jname j) alt_json) js
  | None => None
  end.

(** Rule 4: '-edited' *)
Definition rule4 (media_name : string) (js : list jfile) : option jfile :=
  match edited_split media_name with
  | Some (g1, g2) =>
      let rule4_json := (g1 ++ g2) ++ ".json" in
      find (fun j => ci_eq (jname j) rule4_json) js
  | None => None
  end.

(** the JPG loop, then the HEIC loop, of rules 5 and 6 *)
Definition jpg_heic (base_name : string) (js : list jfile) : option jfile :=
  let jpg_json_name := (base_name ++ ".JPG") ++ ".json" in
  let heic_json_name := (base_name ++ ".HEIC") ++ ".json" in
  match find (fun j => ci_eq (jname j) jpg_json_name) js with
  | Some j => Some j
  | None => find (fun j => ci_eq (jname j) heic_json_name) js
  end.

(** Rule 5 - Live photos *)
Definition rule5 (media_name : string) (js : list jfile) : option jfile :=
  if endswith (lower media_name) ".mp4" then jpg_heic (drop_suffix 4 media_name) js
  else None.

(** Rule 6 - live photo duplicates *)
Definition rule6 (media_name : string) (js : list jfile) : option jfile :=
  match live_dup_split media_name with
  | Some base_name => jpg_heic base_name js
  | None => None
  end.

(** Rule 7: PNG fallback *)
Definition rule7 (media_name : string) (js : list jfile) : option jfile :=
  match png_split media_name with
  | Some base_name =>
      let png_json_name := base_name ++ ".json" in
      find (fun j => ci_eq (jname j) png_json_name) js
  | None => None
  end.

(** [_find_json_for_media media_file json_files]; rule 8 is the title rule *)
Definition _find_json_for_media (media_file : path) (json_files : list jfile)
  : list jfile * res (option jfile) :=
  let media_name := name media_file in
  match rule1 media_name json_files with Some j => ([], Ok (Some j)) | None =>
  match rule2 media_name json_files with Some j => ([], Ok (Some j)) | None =>
  match rule3 media_name json_files with Some j => ([], Ok (Some j)) | None =>
  match rule4 media_name json_files with Some j => ([], Ok (Some j)) | None =>
  match rule5 media_name json_files with Some j => ([], Ok (Some j)) | None =>
  match rule6 media_name json_files with Some j => ([], Ok (Some j)) | None =>
  match rule7 media_name json_files with Some j => ([], Ok (Some j)) | None =>
    title_rule media_name json_files
  end end end end end end end.

End Validator.

Definition jf (n : string) (c : option json) : jfile := mkJ ["Photos from 2020"; n] c.

Example paren_split_ex : paren_split "IMG(12).jpg" = Some ("IMG", "12", ".jpg").
Proof. reflexivity. Qed.
Example edited_split_ex : edited_split "a-EDITED.jpg" = Some ("a", ".jpg").
Proof. reflexivity. Qed.
Example live_dup_ex : live_dup_split "V(1).MP4" = Some "V".
Proof. reflexivity. Qed.
Example png_split_ex : png_split "x.PNG" = Some "x".
Proof. reflexivity. Qed.
Example matcher_rule1_ex :
  Matcher.rule1 "a.jpg" [jf "A.JPG.supplemental.json" None] = Some (jf "A.JPG.supplemental.json" None).
Proof. reflexivity. Qed.
Example proc_rule5_ex :
  Processor._match_json ["d"; "VID_0002.mp4"] [jf "VID_0002.JPG.json" None]
  = ([], Ok (Some (jf "VID_0002.JPG.json" None, 5))).
Proof. reflexivity. Qed.

(* ------------------------------------------------------------------ *)
(** ** Time: [datetime.fromtimestamp(ts, tz=UTC).astimezone(zone)] *)

Open Scope Z_scope.

Record datetime := mkDT { year : Z; month : Z; day : Z; seconds_of_day : Z }.

(** proleptic Gregorian date of a day count since 1970-01-01 *)
Definition civil_from_days (z : Z) : Z * Z * Z :=
  let z' := z + 719468 in
  let era := z' / 146097 in
  let doe := z' - era * 146097 in
  let yoe := (doe - doe / 1460 + doe / 36524 - doe / 146096) / 365 in
  let y := yoe + era * 400 in
  let doy := doe - (365 * yoe + yoe / 4 - yoe / 100) in
  let mp := (5 * doy + 2) / 153 in
  let d := doy - (153 * mp + 2) / 5 + 1 in
  let m := if mp <? 10 then mp + 3 else mp - 9 in
  (if m <=? 2 then y + 1 else y, m, d).

(** day count since 1970-01-01 of a proleptic Gregorian date *)
Definition days_from_civil (y m d : Z) : Z :=
  let y' := if m <=? 2 then y - 1 else y in
  let era := y' / 400 in
  let yoe := y' - era * 400 in
  let doy := (153 * (if 2 <? m then m - 3 else m + 9) + 2) / 5 + d - 1 in
  let doe := yoe * 365 + yoe / 4 - yoe / 100 + doy in
  era * 146097 + doe - 719468.

(** broken-down time of a second count since the epoch *)
Definition civil_of_seconds (s : Z) : datetime :=
  let '(y, m, d) := civil_from_days (s / 86400) in mkDT y m d (s mod 86400).

(** day number of the [n]-th Sunday of a month, and of its last Sunday *)
Definition nth_sunday (y m n : Z) : Z :=
  let d1 := days_from_civil y m 1 in
  d1 + (7 - (d1 + 4) mod 7) mod 7 + 7 * (n - 1).

Definition last_sunday (y m last : Z) : Z :=
  let dl := days_from_civil y m last in dl - (dl + 4) mod 7.

(** daylight saving time of America/Los_Angeles before 1967 (tz database:
    the US rules of 1918-1919 and the war time of 1942-1945, then the
    California rules of 1948-1966), as UTC intervals *)
Definition pacific_dst_before_1967 (ts : Z) : bool :=
  let y := year (civil_of_seconds ts) in
  let within a b := (a <=? ts) && (ts <? b) in
  if (1918 <=? y) && (y <=? 1919) then
    within (last_sunday y 3 31 * 86400 + 36000) (last_sunday y 10 31 * 86400 + 32400)
  else if (1942 <=? y) && (y <=? 1945) then
    within (days_from_civil 1942 2 9 * 86400 + 36000) (days_from_civil 1945 9 30 * 86400 + 32400)
  else if (1948 <=? y) && (y <=? 1949) then
    within (days_from_civil 1948 3 14 * 86400 + 36060) (days_from_civil 1949 1 1 * 86400 + 32400)
  else if (1950 <=? y) && (y <=? 1966) then
    within (last_sunday y 4 30 * 86400 + 32400)
           ((if y <=? 1961 then last_sunday y 9 30 else last_sunday y 10 31) * 86400 + 32400)
  else false.

(** UTC offset, in seconds, of America/Los_Angeles at a UTC instant, as
    [ZoneInfo('America/Los_Angeles')] gives it: local mean time (-7:52:58)
    until 1883-11-18 20:00 UTC, then Pacific time with the daylight-saving
    rules of the tz database (from 1967 on the United States rules, with
    transitions at 02:00 local, i.e. 10:00 UTC in spring and 09:00 UTC in
    autumn). *)
Definition pacific_offset (ts : Z) : Z :=
  let y := year (civil_of_seconds ts) in
  let window :=
    if 2007 <=? y then Some (nth_sunday y 3 2, nth_sunday y 11 1)
    else if 1987 <=? y then Some (nth_sunday y 4 1, last_sunday y 10 31)
    else if y =? 1974 then Some (days_from_civil 1974 1 6, last_sunday y 10 31)
    else if y =? 1975 then Some (days_from_civil 1975 2 23, last_sunday y 10 31)
    else if 1967 <=? y then Some (last_sunday y 4 30, last_sunday y 10 31)
    else None in
  match window with
  | Some (start_day, end_day) =>
      if (start_day * 86400 + 36000 <=? ts) && (ts <? end_day * 86400 + 32400)
      then -25200 else -28800
  | None =>
      if ts <? days_from_civil 1883 11 18 * 86400 + 72000 then -28378
      else if pacific_dst_before_1967 ts then -25200 else -28800
  end.

Definition in_year_range (d : datetime) : bool := (1 <=? year d) && (year d <=? 9999).

(** [datetime.fromtimestamp(n, tz=UTC).astimezone(zone)] as CPython
    computes it on Linux, the zone given by its UTC offset at each instant:
    [n] must fit the 64-bit [time_t] ([OverflowError]); [gmtime] must
    represent the year, [tm_year = year - 1900] being a C [int] ([OSError],
    EOVERFLOW); the UTC year must lie in 1..9999 ([ValueError]), and so must
    the local one ([OverflowError] from [astimezone]). *)
Definition to_local (zone : Z -> Z) (n : Z) : res datetime :=
  if negb ((- 2 ^ 63 <=? n) && (n <? 2 ^ 63)) then Exc OverflowError
  else
    let u := civil_of_seconds n in
    if negb ((- 2 ^ 31 <=? year u - 1900) && (year u - 1900 <? 2 ^ 31)) then Exc OSError
    else if negb (in_year_range u) then Exc ValueError
    else
      let l := civil_of_seconds (n + zone n) in
      if in_year_range l then Ok l else Exc OverflowError.

(* ------------------------------------------------------------------ *)
(** ** [int(x)] on a JSON value *)

Definition is_py_space (c : ascii) : bool :=
  let n := nat_of_ascii c in
  ((9 <=? n)%nat && (n <=? 13)%nat) || ((28 <=? n)%nat && (n <=? 32)%nat).

Fixpoint drop_space (l : list ascii) : list ascii :=
  match l with
  | c :: l' => if is_py_space c then drop_space l' else l
  | [] => []
  end.

(** decimal digits, single underscores allowed between digits *)
Fixpoint digits_us (l : list ascii) (acc : Z) (after_digit : bool) : option Z :=
  match l with
  | [] => if after_digit then Some acc else None
  | c :: l' =>
      if is_digit c then
        digits_us l' (acc * 10 + Z.of_nat (nat_of_ascii c - 48)) true
      else if Ascii.eqb c "_" && after_digit then digits_us l' acc false
      else None
  end.

(** [int(s)] for a string, base 10: [ValueError] when malformed *)
Definition int_of_str (s : string) : res Z :=
  let l := rev (drop_space (rev (drop_space (list_ascii_of_string s)))) in
  let parsed :=
    match l with
    | c :: l' =>
        if Ascii.eqb c "-" then option_map Z.opp (digits_us l' 0 false)
        else if Ascii.eqb c "+" then digits_us l' 0 false
        else digits_us l 0 false
    | [] => None
    end in
  match parsed with Some z => Ok z | None => Exc ValueError end.

(** [int(v)]: [TypeError] for [None], lists and dicts *)
Definition py_int (v : json) : res Z :=
  match v with
  | JInt z => Ok z
  | JBool b => Ok (if b then 1 else 0)
  | JStr s => int_of_str s
  | _ => Exc TypeError
  end.

Close Scope Z_scope.

Example la_new_year : to_local pacific_offset 1609459200
  = Ok (mkDT 2020 12 31 57600).
Proof. reflexivity. Qed.
Example la_summer : pacific_offset 1625140800 = (-25200)%Z.
Proof. reflexivity. Qed.
Example int_of_str_ex : int_of_str " 1_609_459_200 " = Ok 1609459200%Z.
Proof. reflexivity. Qed.
Example int_of_str_bad : int_of_str "abc" = Exc ValueError.
Proof. reflexivity. Qed.

(* ------------------------------------------------------------------ *)
(** ** The pipeline [GooglePhotosProcessor] *)

(** [Path.suffix] of a name *)
Definition suffix (nm : string) : string :=
  match rfind_dot nm with
  | Some i => if (0 <? i)%nat && (i <? String.length nm - 1)%nat
              then drop_prefix i nm else ""
  | None => ""
  end.

Definition MEDIA_EXTS : list string :=
  [".jpg"; ".jpeg"; ".png"; ".gif"; ".bmp"; ".tiff"; ".tif";
   ".mp4"; ".mov"; ".avi"; ".mkv"; ".webm"; ".m4v"; ".3gp";
   ".heic"; ".heif"].

(** Formats that ExifTool can write metadata to *)
Definition WRITABLE_FORMATS : list string :=
  [".jpg"; ".jpeg"; ".png"; ".tiff"; ".tif"; ".heic"; ".heif";
   ".mp4"; ".mov"; ".m4v"; ".3gp"].

(** Formats that don't support metadata writing *)
Definition READ_ONLY_FORMATS : list string :=
  [".avi"; ".mkv"; ".webm"; ".gif"; ".bmp"].

(** [x in S] for a set of strings *)
Definition mem (x : string) (s : list string) : bool :=
  existsb (String.eqb x) s.

(** the branch of [_process_file] chosen by [file_ext]: [if file_ext in
    READ_ONLY_FORMATS: ... return], then [if file_ext in WRITABLE_FORMATS:
    ... else: ...] *)
Inductive branch := ReadOnlyBranch | WritableBranch | UnknownBranch.

Definition classify (file_ext : string) : branch :=
  if mem file_ext READ_ONLY_FORMATS then ReadOnlyBranch
  else if mem file_ext WRITABLE_FORMATS then WritableBranch
  else UnknownBranch.

(** the media files [_process_folder] enumerates among the entries found *)
Definition media_files (entries : list path) : list path :=
  filter (fun p => mem (lower (suffix (name p))) MEDIA_EXTS) entries.

(** [meta.get('photoTakenTime', {}).get('timestamp') or
    meta.get('creationTime', {}).get('timestamp')] *)
Definition get_ts (meta : json) : res json :=
  let* p := dict_get meta "photoTakenTime" (JObj []) in
  let* a := dict_get p "timestamp" JNull in
  if truthy a then Ok a
  else
    let* c := dict_get meta "creationTime" (JObj []) in
    dict_get c "timestamp" JNull.

(** decimal rendering ([str(n)]) and [f'{n:02d}'] *)
Definition digit_char (d : Z) : ascii := ascii_of_nat (48 + Z.to_nat d).

Fixpoint dec_aux (fuel : nat) (z : Z) (acc : string) : string :=
  match fuel with
  | O => acc
  | S f =>
      let acc' := String (digit_char (z mod 10)) acc in
      if (z <? 10)%Z then acc' else dec_aux f (z / 10) acc'
  end.

Definition str_Z (z : Z) : string :=
  if (z <? 0)%Z then "-" ++ dec_aux 20 (- z) "" else dec_aux 20 z "".

Definition pad2 (z : Z) : string :=
  if (0 <=? z)%Z && (z <? 10)%Z then "0" ++ str_Z z else str_Z z.

Record state := mkState {
  dirs : list path;                 (* directories made sure to exist, newest first *)
  files : list (path * path);       (* archive copies: (target, source) *)
  mtimes : list (path * Z);         (* os.utime calls: (target, instant) *)
  skipped : list path;
  processed : nat;
  copied_only : nat;
  folder_processed : nat;
  folder_copied_only : nat;
  folder_skipped : nat;
  copied_only_files : list path
}.

Definition skip (st : state) (media : path) : state :=
  mkState (dirs st) (files st) (mtimes st) (skipped st ++ [media])
    (processed st) (copied_only st) (folder_processed st)
    (folder_copied_only st) (S (folder_skipped st)) (copied_only_files st).

Definition path_eqb (p q : path) : bool :=
  if list_eq_dec string_dec p q then true else false.

(** a directory and its ancestors, the outermost first: the nonempty
    prefixes of its path *)
Fixpoint dir_chain (d : path) : list path :=
  match d with
  | [] => []
  | c :: d' => [c] :: map (cons c) (dir_chain d')
  end.

(** [d.mkdir(parents=True, exist_ok=True)]: every directory of the chain
    of [d] not yet there is created, parents first *)
Definition mkdir (st : state) (d : path) : state :=
  let created := filter (fun p => negb (existsb (path_eqb p) (dirs st))) (dir_chain d) in
  mkState (rev created ++ dirs st) (files st) (mtimes st) (skipped st)
    (processed st) (copied_only st) (folder_processed st)
    (folder_copied_only st) (folder_skipped st) (copied_only_files st).

Definition copy2 (st : state) (src target : path) : state :=
  mkState (dirs st) ((target, src) :: files st) (mtimes st) (skipped st)
    (processed st) (copied_only st) (folder_processed st)
    (folder_copied_only st) (folder_skipped st) (copied_only_files st).

Definition utime (st : state) (target : path) (t : Z) : state :=
  mkState (dirs st) (files st) ((target, t) :: mtimes st) (skipped st)
    (processed st) (copied_only st) (folder_processed st)
    (folder_copied_only st) (folder_skipped st) (copied_only_files st).

Definition count_processed (st : state) : state :=
  mkState (dirs st) (files st) (mtimes st) (skipped st)
    (S (processed st)) (copied_only st) (S (folder_processed st))
    (folder_copied_only st) (folder_skipped st) (copied_only_files st).

Definition count_copied_only (st : state) (media : path) : state :=
  mkState (dirs st) (files st) (mtimes st) (skipped st)
    (processed st) (S (copied_only st)) (folder_processed st)
    (S (folder_copied_only st)) (folder_skipped st)
    (copied_only_files st ++ [media]).

Section Dates.

(** the zone of [PACIFIC], by its UTC offset at each instant *)
Variable zone : Z -> Z.

(** [_build_cmd]: the timestamp the five date arguments are rendered from
    ([_json_time_to_pacific] turns any exception into [''], no dates) *)
Definition _json_time_to_pacific (ts : json) : option datetime :=
  match py_int ts with
  | Ok n => match to_local zone n with Ok d => Some d | Exc _ => None end
  | Exc _ => None
  end.

Definition _build_cmd_dates (meta : json) : res (option datetime) :=
  let* p := dict_get meta "photoTakenTime" (JObj []) in
  let* a := dict_get p "timestamp" JNull in
  if truthy a then Ok (_json_time_to_pacific a)
  else
    let* c := dict_get meta "creationTime" (JObj []) in
    let* b := dict_get c "timestamp" JNull in
    if truthy b then Ok (_json_time_to_pacific b) else Ok None.

End Dates.

(** [str(p)]: the components joined with ['/'] (an absolute path has the
    empty string as first component) *)
Definition path_str (p : path) : string := String.concat "/" p.

(* ------------------------------------------------------------------ *)
(** ** The exiftool command [_build_cmd] *)

Section BuildCmd.

(** the zone of [PACIFIC] *)
Variable zone : Z -> Z.
(** [f'{v}'] of a JSON value (floats, the usual coordinates, have no
    counterpart in [json]; the rendering is left open) *)
Variable fmt : json -> string.
(** [dt.strftime('%Y:%m:%d %H:%M:%S')] *)
Variable strftime : datetime -> string.

(** [for p in v]: a list yields its items, a dict its keys, a string its
    characters; [None], numbers and booleans raise [TypeError] *)
Definition py_iter (v : json) : res (list json) :=
  match v with
  | JArr l => Ok l
  | JObj kvs => Ok (map (fun kv => JStr (fst kv)) kvs)
  | JStr s => Ok (map (fun c => JStr (String c EmptyString)) (list_ascii_of_string s))
  | _ => Exc TypeError
  end.

(** the generator [(p.get('name', '') for p in people if p.get('name'))],
    run to its end by [join] *)
Fixpoint people_names (ps : list json) : res (list json) :=
  match ps with
  | [] => Ok []
  | p :: ps' =>
      let* n := dict_get p "name" JNull in
      if truthy n then
        let* n' := dict_get p "name" (JStr "") in
        let* rest := people_names ps' in Ok (n' :: rest)
      else people_names ps'
  end.

(** ['; '.join(items)]: [TypeError] for an item that is not a string *)
Fixpoint join_str (items : list json) : res (list string) :=
  match items with
  | [] => Ok []
  | JStr s :: items' => let* rest := join_str items' in Ok (s :: rest)
  | _ :: _ => Exc TypeError
  end.

Definition _build_cmd (meta : json) (target_path : path) : res (list string) :=
  let cmd := ["exiftool"; "-overwrite_original"; "-q"; "-m"] in
  (* Dates *)
  let* d := _build_cmd_dates zone meta in
  let dates :=
    match d with
    | Some dt =>
        let date_str := strftime dt in
        ["-DateTimeOriginal=" ++ date_str; "-CreateDate=" ++ date_str;
         "-ModifyDate=" ++ date_str; "-FileModifyDate=" ++ date_str;
         "-FileCreateDate=" ++ date_str]
    | None => []
    end in
  (* GPS *)
  let* geo := dict_get meta "geoData" (JObj []) in
  let* lat := dict_get geo "latitude" JNull in
  let* has_gps :=
    if truthy lat then Ok true
    else let* lon := dict_get geo "longitude" JNull in Ok (truthy lon) in
  let* gps :=
    if has_gps then
      let* la := dict_get geo "latitude" (JInt 0) in
      let* lo := dict_get geo "longitude" (JInt 0) in
      let* alt := dict_get geo "altitude" JNull in
      Ok (List.app ["-GPSLatitude=" ++ fmt la; "-GPSLongitude=" ++ fmt lo]
            (if truthy alt then ["-GPSAltitude=" ++ fmt alt] else []))
    else Ok [] in
  (* People *)
  let* people := dict_get meta "people" (JArr []) in
  let* ps := py_iter people in
  let* ns := people_names ps in
  let* parts := join_str ns in
  let names := String.concat "; " parts in
  let keywords :=
    if String.eqb names "" then [] else ["-Keywords=" ++ names; "-Subject=" ++ names] in
  (* Description *)
  let* desc := dict_get meta "description" JNull in
  let description := if truthy desc then ["-ImageDescription=" ++ fmt desc] else [] in
  Ok (cmd ++ dates ++ gps ++ keywords ++ description ++ [path_str target_path])%list.

End BuildCmd.

(** What [_process_file] leaves to the outside world: the rendering
    [f'{v}'] of a JSON value and [dt.strftime('%Y:%m:%d %H:%M:%S')] used by
    [_build_cmd], and [subprocess.run(cmd, capture_output=True, text=True)]:
    [Ok true] when its return code is 0, [Ok false] for another, or the
    exception it raises (e.g. [OSError] when exiftool is not installed). *)
Record exif_io := mkExifIO {
  io_fmt : json -> string;
  io_strftime : datetime -> string;
  io_run : list string -> res bool
}.

Section Pipeline.

(** the zone of [PACIFIC], by its UTC offset at each instant *)
Variable zone : Z -> Z.
(** formatting and the exiftool process *)
Variable io : exif_io.
(** [self.out_base] *)
Variable out_base : path.

(** the destination directory [out_base / str(dt.year) / f'{dt.month:02d}'] *)
Definition target_dir_of (dt : datetime) : path :=
  (out_base ++ [str_Z (year dt); pad2 (month dt)])%list.

(** [_process_file(media, jpath)]; the outcome of [os.utime] failing is
    caught by the code and does not change the state.  An exception of
    [_build_cmd] or of [subprocess.run] (neither under a [try]) leaves the
    function after the copy; the result then carries only the exception. *)
Definition _process_file (media : path) (jpath : jfile) (st : state) : res state :=
  match load_json jpath with
  | None => Ok (skip st media)                       (* bad JSON *)
  | Some meta =>
    if negb (truthy meta) then Ok (skip st media)    (* bad JSON *)
    else
      let* ts := get_ts meta in
      if negb (truthy ts) then Ok (skip st media)    (* no timestamp *)
      else
        let* n := py_int ts in
        let* dt := to_local zone n in
        let target_dir := target_dir_of dt in
        let st1 := mkdir st target_dir in
        let target := (target_dir ++ [name media])%list in
        let st2 := copy2 st1 media target in
        let file_ext := lower (suffix (name media)) in
        match classify file_ext with
        | ReadOnlyBranch => Ok (count_copied_only (utime st2 target n) media)
        | WritableBranch | UnknownBranch =>
            let* cmd := _build_cmd zone (io_fmt io) (io_strftime io) meta target in
            let* ok := io_run io cmd in
            if ok then Ok (count_processed st2)
            else Ok (count_copied_only (utime st2 target n) media)
        end
  end.

(** one iteration of the loop of [_process_folder] *)
Definition process_one (json_files : list jfile) (st : state) (media : path) : res state :=
  match snd (Processor._match_json media json_files) with
  | Exc e => Exc e
  | Ok (Some (j, _)) => _process_file media j st
  | Ok None => Ok (skip st media)                    (* no or multi JSON *)
  end.

(** the loop of [_process_folder]: an exception leaves the loop *)
Fixpoint process_all (json_files : list jfile) (ms : list path) (st : state) : res state :=
  match ms with
  | [] => Ok st
  | m :: ms' => let* st' := process_one json_files st m in process_all json_files ms' st'
  end.

End Pipeline.

Definition empty_state : state := mkState [] [] [] [] 0 0 0 0 0 [].

(** an exiftool run that succeeds, and one that exits with an error *)
Definition io_ok : exif_io := mkExifIO (fun _ => "") (fun _ => "") (fun _ => Ok true).
Definition io_fail : exif_io := mkExifIO (fun _ => "") (fun _ => "") (fun _ => Ok false).

(* ------------------------------------------------------------------ *)
(** ** The auditor's placement and size checks *)

Module Audit.

(** [key in metadata] *)
Definition py_in (k : string) (d : json) : res bool :=
  match d with
  | JObj kvs => Ok (match assoc_last k kvs with Some _ => true | None => false end)
  | JArr l => Ok (existsb (fun v => match v with JStr s => String.eqb s k | _ => false end) l)
  | JStr s => Ok (match String.index 0 k s with Some _ => true | None => false end)
  | _ => Exc TypeError
  end.

(** [metadata[key]] once [key in metadata] held *)
Definition subscript (d : json) (k : string) : res json :=
  match d with
  | JObj kvs => Ok (match assoc_last k kvs with Some v => v | None => JNull end)
  | _ => Exc TypeError
  end.

(** [for time_field in [...]: if time_field in metadata:
    timestamp = metadata[time_field].get('timestamp'); if timestamp: break] *)
Fixpoint find_timestamp (fields : list string) (metadata : json) (timestamp : json)
  : res json :=
  match fields with
  | [] => Ok timestamp
  | f :: fs =>
      let* b := py_in f metadata in
      if b then
        let* v := subscript metadata f in
        let* t := dict_get v "timestamp" JNull in
        if truthy t then Ok t else find_timestamp fs metadata t
      else find_timestamp fs metadata timestamp
  end.

(** [_get_expected_output_path(media_file, json_files)] *)
Definition _get_expected_output_path (zone : Z -> Z) (output_path : path)
    (media_file : path) (json_files : list jfile) : res (option path) :=
  let* o := snd (Validator._find_json_for_media media_file json_files) in
  match o with
  | None => Ok None
  | Some j =>
      match load_json j with
      | None => Ok None
      | Some metadata =>
          if negb (truthy metadata) then Ok None
          else
            let* timestamp := find_timestamp ["photoTakenTime"; "creationTime"] metadata JNull in
            if negb (truthy timestamp) then Ok None
            else
              (* try: ... except (ValueError, TypeError): return None *)
              match bind (py_int timestamp) (to_local zone) with
              | Ok dt =>
                  Ok (Some (output_path ++ [str_Z (year dt); pad2 (month dt); name media_file])%list)
              | Exc ValueError | Exc TypeError => Ok None
              | Exc e => Exc e
              end
      end
  end.

Inductive size_verdict :=
  | OutputMissing | SmallerBeyond32 | LargerBeyond10K | SizeAcceptable.

(** [_compare_file_sizes]: [(is_match, reason)], the reason by its kind *)
Definition _compare_file_sizes (output_exists : bool) (input_size output_size : Z)
  : bool * size_verdict :=
  if negb output_exists then (false, OutputMissing)
  else
    let size_diff := (output_size - input_size)%Z in
    if (size_diff <? -32)%Z then (false, SmallerBeyond32)
    else if (10240 <? size_diff)%Z then (false, LargerBeyond10K)
    else (true, SizeAcceptable).

End Audit.

(* ------------------------------------------------------------------ *)
(** ** The skipped-files list of [run] and the retry filter *)

Definition cr : ascii := ascii_of_nat 13.


(** [skipped_path.write_text('\n'.join(self.skipped))] *)
Definition skipped_text (sk : list path) : string :=
  String.concat (String nl EmptyString) (map path_str sk).

(** the lines [for line in f] yields in text mode (universal newlines:
    ['\n'], ['\r\n'] and ['\r'] end a line), without their line ends; a
    final empty piece stands for no line and is dropped by the
    [if line.strip()] test, as an empty line is *)
Fixpoint lines (s : string) : list string :=
  match s with
  | EmptyString => [EmptyString]
  | String c s' =>
      if Ascii.eqb c nl then EmptyString :: lines s'
      else if Ascii.eqb c cr then
        match s' with
        | String c2 s'' =>
            if Ascii.eqb c2 nl then EmptyString :: lines s''
            else EmptyString :: lines s'
        | EmptyString => EmptyString :: lines s'
        end
      else
        match lines s' with
        | l :: ls => String c l :: ls
        | [] => [String c EmptyString]
        end
  end.

(** [str.strip()] *)
Definition strip (s : string) : string :=
  string_of_list_ascii (rev (drop_space (rev (drop_space (list_ascii_of_string s))))).

(** [s.split(c)] for a one-character separator *)
Fixpoint split_on (c : ascii) (s : string) : list string :=
  match s with
  | EmptyString => [EmptyString]
  | String x s' =>
      if Ascii.eqb x c then EmptyString :: split_on c s'
      else
        match split_on c s' with
        | l :: ls => String x l :: ls
        | [] => [String x EmptyString]
        end
  end.

(** [Path(s).name]: pathlib drops empty and ['.'] parts *)
Definition path_name (s : string) : string :=
  last (filter (fun part => negb (String.eqb part "" || String.eqb part "."))
               (split_on "/" s)) "".

(** [set(Path(line.strip()).name for line in f if line.strip())] *)
Definition retry_names (text : string) : list string :=
  map (fun l => path_name (strip l))
      (filter (fun l => negb (String.eqb (strip l) "")) (lines text)).

(** [media_files = [p for p in media_files if p.name in process_files_set]] *)
Definition retry_filter (process_files_set : list string) (ms : list path) : list path :=
  filter (fun p => mem (name p) process_files_set) ms.

(** a component [run] can read back: no ['/'], ['\n'] or ['\r'] *)
Definition clean_component (c : string) : bool :=
  forallb (fun a => negb (Ascii.eqb a "/" || Ascii.eqb a nl || Ascii.eqb a cr))
          (list_ascii_of_string c).


(* ------------------------------------------------------------------ *)
(** ** The auditor's year loop [_validate_year_folder] *)


(** [ValidationResult]; an entry of [errors] is the media file of its
    message [Could not determine output path for: ...] *)
Record vresult := mkVR {
  total_input_files : nat;
  found_in_output : nat;
  content_matches : nat;
  content_mismatches : nat;
  missing_files : list path;
  mismatch_files : list (path * path * Audit.size_verdict);
  errors : list path
}.

(** counters of a [ValidationResult] that agree with its lists *)
Definition balanced (r : vresult) : Prop :=
  total_input_files r
    = (found_in_output r + List.length (missing_files r) + List.length (errors r))%nat /\
  found_in_output r = (content_matches r + content_mismatches r)%nat /\
  List.length (mismatch_files r) = content_mismatches r.

Definition empty_result : vresult := mkVR 0 0 0 0 [] [] [].

Section AuditYear.

(** the zone of [PACIFIC] *)
Variable zone : Z -> Z.
(** [self.output_path] *)
Variable output_path : path.
(** [Path.exists()] *)
Variable out_exists : path -> bool.
(** [stat().st_size] *)
Variable file_size : path -> Z.

Definition add_total (r : vresult) (k : nat) : vresult :=
  mkVR (total_input_files r + k) (found_in_output r) (content_matches r)
    (content_mismatches r) (missing_files r) (mismatch_files r) (errors r).

Definition add_error (r : vresult) (m : path) : vresult :=
  mkVR (total_input_files r) (found_in_output r) (content_matches r)
    (content_mismatches r) (missing_files r) (mismatch_files r) (errors r ++ [m]).

Definition add_missing (r : vresult) (m : path) : vresult :=
  mkVR (total_input_files r) (found_in_output r) (content_matches r)
    (content_mismatches r) (missing_files r ++ [m]) (mismatch_files r) (errors r).

Definition add_match (r : vresult) : vresult :=
  mkVR (total_input_files r) (S (found_in_output r)) (S (content_matches r))
    (content_mismatches r) (missing_files r) (mismatch_files r) (errors r).

Definition add_mismatch (r : vresult) (x : path * path * Audit.size_verdict) : vresult :=
  mkVR (total_input_files r) (S (found_in_output r)) (content_matches r)
    (S (content_mismatches r)) (missing_files r) (mismatch_files r ++ [x]) (errors r).

(** one iteration of [for media_file in media_files:]; the second
    component is [consumed_jsons] *)
Definition check_media (json_files : list jfile) (acc : vresult * list path)
    (media_file : path) : res (vresult * list path) :=
  let (r, consumed_jsons) := acc in
  let* json_file := snd (Validator._find_json_for_media media_file json_files) in
  let consumed' :=
    match json_file with Some j => jpath j :: consumed_jsons | None => consumed_jsons end in
  let* expected_output := Audit._get_expected_output_path zone output_path media_file json_files in
  match expected_output with
  | None => Ok (add_error r media_file, consumed')
  | Some e =>
      if negb (out_exists e) then Ok (add_missing r media_file, consumed')
      else
        let (is_match, reason) :=
          Audit._compare_file_sizes (out_exists e) (file_size media_file) (file_size e) in
        if is_match then Ok (add_match r, consumed')
        else Ok (add_mismatch r (media_file, e, reason), consumed')
  end.

Fixpoint check_all (json_files : list jfile) (acc : vresult * list path)
    (ms : list path) : res (vresult * list path) :=
  match ms with
  | [] => Ok acc
  | m :: ms' => let* acc' := check_media json_files acc m in check_all json_files acc' ms'
  end.

(** [orphan_jsons = [str(j) for j in json_files if j not in consumed_jsons]] *)
Definition orphan_jsons (json_files : list jfile) (consumed_jsons : list path) : list jfile :=
  filter (fun j => negb (existsb (path_eqb (jpath j)) consumed_jsons)) json_files.

(** [[m for m in media_files if not self._get_expected_output_path(m, json_files)]],
    the list written to [<year>_validation_result_not_present.txt] *)
Fixpoint not_present (json_files : list jfile) (ms : list path) : res (list path) :=
  match ms with
  | [] => Ok []
  | m :: ms' =>
      let* o := Audit._get_expected_output_path zone output_path m json_files in
      let* rest := not_present json_files ms' in
      match o with None => Ok (m :: rest) | Some _ => Ok rest end
  end.

(** [_validate_year_folder] on the media and sidecar files found in the
    year folder: the result, the orphan sidecars and the not-present list *)
Definition validate_year (json_files : list jfile) (media_files : list path)
    (r : vresult) : res (vresult * list jfile * list path) :=
  let r0 := add_total r (List.length media_files) in
  let* acc := check_all json_files (r0, []) media_files in
  let (r1, consumed_jsons) := acc in
  let* np := not_present json_files media_files in
  Ok (r1, orphan_jsons json_files consumed_jsons, np).

End AuditYear.

(* ------------------------------------------------------------------ *)
(** ** The auditor's modified-date test on [output_path / year / MM] *)

(** [re.match(r'^\d{2}$', month_folder.name)] *)
Definition two_digits (nm : string) : bool :=
  match nm with
  | String a (String b rest) =>
      is_digit a && is_digit b &&
      match rest with
      | EmptyString => true
      | String c EmptyString => Ascii.eqb c nl
      | _ => false
      end
  | _ => false
  end.

(** [mtime = datetime.fromtimestamp(st_mtime, tz=PACIFIC)] and the test
    [mtime.year != expected_year or mtime.month != expected_month]; an
    exception is passed over (the file is not reported) *)
Definition mtime_invalid (zone : Z -> Z) (expected_year expected_month : Z) (st_mtime : Z) : bool :=
  match to_local zone st_mtime with
  | Ok mtime => negb ((year mtime =? expected_year)%Z && (month mtime =? expected_month)%Z)
  | Exc _ => false
  end.

(** the files of one month folder, each with its [st_mtime] *)
Fixpoint invalid_in_folder (zone : Z -> Z) (ey em : Z) (fs : list (path * Z)) : list path :=
  match fs with
  | [] => []
  | (f, t) :: fs' =>
      if mem (lower (suffix (name f))) MEDIA_EXTS && mtime_invalid zone ey em t
      then f :: invalid_in_folder zone ey em fs'
      else invalid_in_folder zone ey em fs'
  end.

(** [invalid_date_files] for the month folders of [output_path / year]:
    each is its name with its files *)
Fixpoint invalid_date_files (zone : Z -> Z) (year_s : string)
    (month_folders : list (string * list (path * Z))) : res (list path) :=
  match month_folders with
  | [] => Ok []
  | (nm, fs) :: mfs =>
      if two_digits nm then
        let* expected_year := int_of_str year_s in
        let* expected_month := int_of_str nm in
        let* rest := invalid_date_files zone year_s mfs in
        Ok (invalid_in_folder zone expected_year expected_month fs ++ rest)%list
      else invalid_date_files zone year_s mfs
  end.

(** [dt] is the local instant of the capture timestamp the pipeline reads
    for [media]: the sidecar [_match_json] picks, its parsed content, the
    timestamp taken from it, [int(ts)] and its conversion to the zone *)
Definition sidecar_instant (zone : Z -> Z) (json_files : list jfile) (media : path)
    (n : Z) (dt : datetime) : Prop :=
  exists j k meta ts,
    snd (Processor._match_json media json_files) = Ok (Some (j, k)) /\
    load_json j = Some meta /\ truthy meta = true /\
    get_ts meta = Ok ts /\ truthy ts = true /\ py_int ts = Ok n /\
    to_local zone n = Ok dt.

(** the branches of [_process_file] after the copy: read-only, or
    [_build_cmd] raising, [subprocess.run] raising, exiting with 0 or not *)
Ltac exif_cases io :=
  destruct (classify _);
  [| destruct (_build_cmd _ _ _ _ _) as [?cmd|?e]; cbn [bind] in *;
     [destruct (io_run io _) as [[|]|?e]; cbn [bind] in *|] ..].

(* ================================================================== *)
(** * Properties *)

(** ** String and list facts *)

Lemma lower_app (a b : string) : lower (a ++ b) = lower a ++ lower b.
Proof. induction a as [|c a IH]; simpl; [reflexivity | now rewrite IH]. Qed.

Lemma lower_length (s : string) : String.length (lower s) = String.length s.
Proof. induction s as [|c s IH]; simpl; [reflexivity | now rewrite IH]. Qed.

Lemma length_app (a b : string) :
  String.length (a ++ b) = (String.length a + String.length b)%nat.
Proof. induction a as [|c a IH]; simpl; [reflexivity | now rewrite IH]. Qed.

Lemma prefix_app (a b : string) : String.prefix a (a ++ b) = true.
Proof.
  induction a as [|c a IH]; simpl; [now destruct b|].
  destruct (ascii_dec c c) as [_|n]; [exact IH | now contradiction n].
Qed.

Lemma substring_0_full (s : string) : substring 0 (String.length s) s = s.
Proof. induction s as [|c s IH]; simpl; [reflexivity | now rewrite IH]. Qed.

Lemma substring_app_left (a b : string) :
  substring 0 (String.length a) (a ++ b) = a.
Proof. induction a as [|c a IH]; simpl; [now destruct b | now rewrite IH]. Qed.

Lemma substring_app_right (a b : string) :
  substring (String.length a) (String.length b) (a ++ b) = b.
Proof.
  induction a as [|c a IH]; simpl; [apply substring_0_full | exact IH].
Qed.

Lemma drop_prefix_app (a b : string) : drop_prefix (String.length a) (a ++ b) = b.
Proof.
  unfold drop_prefix. rewrite length_app.
  replace (String.length a + String.length b - String.length a)%nat
    with (String.length b) by lia.
  apply substring_app_right.
Qed.

Lemma drop_suffix_app (a b : string) : drop_suffix (String.length b) (a ++ b) = a.
Proof.
  unfold drop_suffix. rewrite length_app.
  replace (String.length a + String.length b - String.length b)%nat
    with (String.length a) by lia.
  apply substring_app_left.
Qed.

Lemma endswith_app (a b : string) : endswith (a ++ b) b = true.
Proof.
  unfold endswith. rewrite length_app.
  replace (String.length a + String.length b - String.length b)%nat
    with (String.length a) by lia.
  rewrite substring_app_right, String.eqb_refl.
  apply andb_true_intro; split; [apply Nat.leb_le; lia | reflexivity].
Qed.

(** [find] returns the first element its test accepts *)
Lemma find_first {A} (f : A -> bool) (l : list A) (x : A) :
  find f l = Some x <->
  exists pre post, l = (pre ++ x :: post)%list /\ f x = true /\
                   Forall (fun y => f y = false) pre.
Proof.
  split.
  - induction l as [|y l IH]; simpl; [discriminate|].
    destruct (f y) eqn:Fy.
    + intros [= <-]. exists [], l. auto.
    + intros H. destruct (IH H) as (pre & post & -> & Fx & Fpre).
      exists (y :: pre), post. auto.
  - intros (pre & post & -> & Fx & Fpre).
    induction Fpre as [|y pre Fy _ IH]; simpl; [now rewrite Fx | now rewrite Fy].
Qed.

Lemma find_none {A} (f : A -> bool) (l : list A) :
  find f l = None <-> Forall (fun y => f y = false) l.
Proof.
  induction l as [|y l IH]; simpl; [split; auto|].
  destruct (f y) eqn:Fy; split; intros H.
  - discriminate.
  - inversion H; congruence.
  - constructor; [assumption | now apply IH].
  - inversion H; now apply IH.
Qed.

Lemma lit_dotstar_tail_json (nm p mid t : string) :
  lower p = lower nm -> lower t = ".json" -> no_nl mid = true ->
  lit_dotstar_tail nm ".json" (p ++ mid ++ t) = true.
Proof.
  intros Hp Ht Hmid.
  unfold lit_dotstar_tail, startswith.
  rewrite lower_app, Hp, prefix_app; simpl andb.
  assert (Hlen : String.length nm = String.length p)
    by now rewrite <- (lower_length nm), <- Hp, lower_length.
  rewrite Hlen, drop_prefix_app.
  unfold before_tail_ci.
  replace (lower ".json") with ".json" by reflexivity.
  rewrite lower_app, Ht, endswith_app.
  assert (Ht5 : String.length ".json" = String.length t)
    by now rewrite <- (lower_length t), Ht.
  rewrite Ht5, drop_suffix_app. exact Hmid.
Qed.

(** ** The resolver *)

Definition media_0001 : path := ["Photos from 2020"; "IMG_0001.jpg"].
Definition sidecar_lower : jfile := jf "IMG_0001.jpg.json" None.
Definition sidecar_upper : jfile := jf "img_0001.JPG.json" None.

(** C1 (corrected): resolve does not treat ambiguity as a miss.  When
    candidates satisfy rule 1 (name equal to [<media name>.json],
    case-insensitively), the first of them in candidate-list order is
    returned with rule 1, however many later candidates also satisfy it. *)
Theorem match_json_first_rule1_candidate (media : path) (pre : list jfile)
    (j : jfile) (post : list jfile) :
  ci_eq (jname j) (name media ++ ".json") = true ->
  Forall (fun j' => ci_eq (jname j') (name media ++ ".json") = false) pre ->
  Processor._match_json media (pre ++ j :: post)%list = ([], Ok (Some (j, 1%nat))).
Proof.
  intros Hj Hpre.
  assert (Hr : Processor.rule1 (name media) (pre ++ j :: post)%list = Some j).
  { unfold Processor.rule1. apply find_first. eauto. }
  unfold Processor._match_json. rewrite Hr. reflexivity.
Qed.

Lemma match_json_first_rule1_candidate_witness :
  ci_eq (jname sidecar_lower) (name media_0001 ++ ".json") = true /\
  Processor._match_json media_0001 ([] ++ sidecar_lower :: [sidecar_upper])%list
    = ([], Ok (Some (sidecar_lower, 1%nat))).
Proof.
  split; [reflexivity|].
  apply match_json_first_rule1_candidate; [reflexivity | constructor].
Defined.

(** C1 counterexample: two sidecars satisfy rule 1 for [IMG_0001.jpg];
    both the pipeline's resolver and [json_matcher.match_json] return the
    first of them with rule 1 instead of falling through. *)
Lemma C1_ambiguous_rule1_picks_first :
  List.length (filter (fun j => ci_eq (jname j) (name media_0001 ++ ".json"))
                      [sidecar_lower; sidecar_upper]) = 2%nat /\
  Processor._match_json media_0001 [sidecar_lower; sidecar_upper]
    = ([], Ok (Some (sidecar_lower, 1%nat))) /\
  Matcher.match_json media_0001 [sidecar_lower; sidecar_upper] 50
    = ([], Ok (Some (sidecar_lower, 1%nat))).
Proof. repeat split; reflexivity. Qed.


Definition sidecar_titled : jfile :=
  jf "IMG_0001.jpg.json" (Some (JObj [("title", JStr "IMG_0001.jpg")])).




Definition sidecar_supplemental : jfile :=
  jf "IMG_0001.jpg.supplemental-metadata.json" None.

(** C3 (corrected): in the pipeline's resolver rule 1 is the exact test:
    it returns the first sidecar whose name equals [<media name>.json]
    case-insensitively, and nothing else.  The general form
    [<media name>*.json] is rule 1 of the stand-alone
    [json_matcher.match_json]: a sidecar named [p ++ mid ++ t] with [p]
    equal to the media name and [t] equal to [.json] (case-insensitively)
    and a newline-free [mid] is returned there with rule 1 when no earlier
    candidate passes that test. *)
Theorem rule1_direct_forms :
  (forall (media : path) (js : list jfile) (j : jfile),
     Processor.rule1 (name media) js = Some j <->
     exists pre post, js = (pre ++ j :: post)%list /\
       ci_eq (jname j) (name media ++ ".json") = true /\
       Forall (fun j' => ci_eq (jname j') (name media ++ ".json") = false) pre) /\
  (forall (media : path) (pre : list jfile) (j : jfile) (post : list jfile)
          (p mid t : string) (limit : nat),
     jname j = p ++ mid ++ t -> lower p = lower (name media) ->
     lower t = ".json" -> no_nl mid = true ->
     Forall (fun j' => lit_dotstar_tail (name media) ".json" (jname j') = false) pre ->
     Matcher.match_json media (pre ++ j :: post)%list limit = ([], Ok (Some (j, 1%nat)))).
Proof.
  split.
  - intros media js j.
    exact (find_first (fun j0 => ci_eq (jname j0) (name media ++ ".json")) js j).
  - intros media pre j post p mid t limit Hn Hp Ht Hmid Hpre.
    assert (Hr : Matcher.rule1 (name media) (pre ++ j :: post)%list = Some j).
    { unfold Matcher.rule1. apply find_first. exists pre, post.
      repeat split; [| exact Hpre]. rewrite Hn. now apply lit_dotstar_tail_json. }
    unfold Matcher.match_json. rewrite Hr. reflexivity.
Qed.

Lemma rule1_direct_forms_witness :
  Processor.rule1 (name media_0001) [sidecar_lower] = Some sidecar_lower /\
  Matcher.match_json media_0001 ([] ++ sidecar_supplemental :: [])%list 50
    = ([], Ok (Some (sidecar_supplemental, 1%nat))).
Proof.
  split.
  - apply (proj1 rule1_direct_forms). exists [], [].
    repeat split; first [reflexivity | constructor].
  - apply (proj2 rule1_direct_forms media_0001 [] sidecar_supplemental []
             "IMG_0001.jpg" ".supplemental-metadata" ".json" 50);
      first [reflexivity | constructor].
Defined.

(** C3 counterexample: [IMG_0001.jpg.supplemental-metadata.json] has the
    form [<media name>*.json], yet the pipeline's rule 1 does not take it:
    no rule of [_match_json] does, and the result is unmatched. *)
Lemma C3_pipeline_rule1_is_exact :
  lit_dotstar_tail (name media_0001) ".json" (jname sidecar_supplemental) = true /\
  Processor.rule1 (name media_0001) [sidecar_supplemental] = None /\
  Processor._match_json media_0001 [sidecar_supplemental]
    = ([sidecar_supplemental], Ok None).
Proof. repeat split; reflexivity. Qed.

(** ** Auditor against pipeline *)

Definition media_long : path :=
  ["Photos from 2020"; "Screenshot_2020-12-31-16-00-00-123_com.example.app.jpg"].
Definition sidecar_long : jfile :=
  jf "Screenshot_2020-12-31-16-00-00-123_com.example.app.jpg.supplemental-metadata.json"
     (Some (JObj [("photoTakenTime", JObj [("timestamp", JStr "1609459200")])])).

(** C4 (code bug): for a 54-character media name, the pipeline's rule 2
    (truncated match) takes a sidecar that starts with the first 45
    characters of the name, but the auditor's rule 2 also asks the sidecar
    stem to be a prefix of the media name, so the auditor resolves nothing:
    the pipeline archives the file under [processed/2020/12] while the
    auditor derives no expected location for it. *)
Lemma C4_auditor_resolution_diverges :
  snd (Processor._match_json media_long [sidecar_long]) = Ok (Some (sidecar_long, 2%nat)) /\
  snd (Validator._find_json_for_media media_long [sidecar_long]) = Ok None /\
  Audit._get_expected_output_path pacific_offset ["processed"] media_long [sidecar_long]
    = Ok None /\
  option_map files
    (match process_all pacific_offset io_ok ["processed"] [sidecar_long]
             [media_long] empty_state with Ok st => Some st | Exc _ => None end)
  = Some [(["processed"; "2020"; "12"; name media_long], media_long)].
Proof. repeat split; reflexivity. Qed.

(** ** Calendar facts *)

Open Scope Z_scope.

(** the month [civil_from_days] computes from the day of its 400-year era *)
Definition month_of_doe (doe : Z) : Z :=
  let yoe := (doe - doe / 1460 + doe / 36524 - doe / 146096) / 365 in
  let doy := doe - (365 * yoe + yoe / 4 - yoe / 100) in
  let mp := (5 * doy + 2) / 153 in
  if mp <? 10 then mp + 3 else mp - 9.

Definition month_ok (doe : Z) : bool :=
  let m := month_of_doe doe in (1 <=? m) && (m <=? 12).

Fixpoint all_from (fuel : nat) (z : Z) : bool :=
  match fuel with
  | O => true
  | S f => month_ok z && all_from f (z + 1)
  end.

Lemma all_from_spec (fuel : nat) : forall z d,
  all_from fuel z = true -> z <= d < z + Z.of_nat fuel -> month_ok d = true.
Proof.
  induction fuel as [|f IH]; intros z d H Hd; simpl in *; [lia|].
  apply andb_prop in H as [Hz Hf].
  destruct (Z.eq_dec d z) as [->|Hne]; [exact Hz|].
  apply (IH (z + 1)); [exact Hf | lia].
Qed.

Lemma all_doe_months : all_from (Z.to_nat 146097) 0 = true.
Proof. vm_compute. reflexivity. Qed.

Lemma civil_month (z : Z) :
  snd (fst (civil_from_days z)) = month_of_doe ((z + 719468) mod 146097).
Proof.
  unfold civil_from_days, month_of_doe. cbv zeta.
  replace ((z + 719468) mod 146097)
    with (z + 719468 - (z + 719468) / 146097 * 146097)
    by (rewrite Z.mod_eq by lia; ring).
  destruct (_ <=? 2); reflexivity.
Qed.

Lemma civil_month_range (z : Z) : 1 <= snd (fst (civil_from_days z)) <= 12.
Proof.
  rewrite civil_month.
  assert (Hb := Z.mod_pos_bound (z + 719468) 146097 ltac:(lia)).
  assert (H := all_from_spec _ 0 ((z + 719468) mod 146097) all_doe_months
                 ltac:(rewrite Z2Nat.id by lia; lia)).
  unfold month_ok in H. apply andb_prop in H as [H1 H2].
  apply Z.leb_le in H1. apply Z.leb_le in H2. lia.
Qed.

Lemma month_of_seconds (s : Z) : month (civil_of_seconds s) = snd (fst (civil_from_days (s / 86400))).
Proof. unfold civil_of_seconds. now destruct (civil_from_days (s / 86400)) as [[y m] d]. Qed.

Lemma pad2_length (m : Z) : 1 <= m <= 12 -> String.length (pad2 m) = 2%nat.
Proof.
  intros Hm.
  assert (m = 1 \/ m = 2 \/ m = 3 \/ m = 4 \/ m = 5 \/ m = 6 \/ m = 7 \/
          m = 8 \/ m = 9 \/ m = 10 \/ m = 11 \/ m = 12) as Hc by lia.
  repeat destruct Hc as [-> | Hc]; try reflexivity; subst; reflexivity.
Qed.

Close Scope Z_scope.

(** ** Placement *)

Lemma to_local_ok (zone : Z -> Z) (n : Z) (dt : datetime) :
  to_local zone n = Ok dt ->
  dt = civil_of_seconds (n + zone n) /\ (1 <= year dt <= 9999)%Z.
Proof.
  unfold to_local.
  destruct (negb ((- 2 ^ 63 <=? n) && (n <? 2 ^ 63)))%Z; [discriminate|]. cbv zeta.
  destruct (negb (_ && _)); [discriminate|].
  destruct (negb (in_year_range (civil_of_seconds n))); [discriminate|].
  unfold in_year_range.
  destruct ((1 <=? year (civil_of_seconds (n + zone n)))%Z) eqn:E1;
    destruct ((year (civil_of_seconds (n + zone n)) <=? 9999)%Z) eqn:E2;
    cbn [andb]; try discriminate.
  intros [= <-]. apply Z.leb_le in E1, E2. split; [reflexivity | lia].
Qed.

Lemma local_month (zone : Z -> Z) (n : Z) (dt : datetime) :
  to_local zone n = Ok dt -> (1 <= month dt <= 12)%Z.
Proof.
  intros H. apply to_local_ok in H as [-> _].
  rewrite month_of_seconds. apply civil_month_range.
Qed.

(** C5: once the sidecar gives a numeric timestamp [n] whose conversion
    [datetime.fromtimestamp(n, tz=UTC).astimezone(zone)] succeeds with the
    local instant [dt], [dt] is the local instant [n + zone n] (not the UTC
    instant [n]), and [_process_file] copies the media file to
    [out_base / year / month / name] with the year and the two-digit month
    of [dt]: it returns with that copy recorded, or, for a format it writes
    metadata into, raises after the copy an exception of [_build_cmd] or of
    running exiftool, [_build_cmd] having been given that same target.  In
    particular, with America/Los_Angeles, the UTC instant 1609459200 falls
    in year 2020, month 12. *)
Theorem process_file_archive_location (zone : Z -> Z) (io : exif_io)
    (out_base : path) (media : path) (j : jfile) (st : state) (meta ts : json) (n : Z)
    (dt : datetime) :
  load_json j = Some meta -> truthy meta = true ->
  get_ts meta = Ok ts -> truthy ts = true -> py_int ts = Ok n ->
  to_local zone n = Ok dt ->
  dt = civil_of_seconds (n + zone n) /\ (1 <= month dt <= 12)%Z /\
  String.length (pad2 (month dt)) = 2%nat /\
  ((exists st', _process_file zone io out_base media j st = Ok st' /\
      files st' =
        ((out_base ++ [str_Z (year dt); pad2 (month dt); name media])%list, media)
          :: files st) \/
   (classify (lower (suffix (name media))) <> ReadOnlyBranch /\
    exists e, _process_file zone io out_base media j st = Exc e /\
      (_build_cmd zone (io_fmt io) (io_strftime io) meta
         (out_base ++ [str_Z (year dt); pad2 (month dt); name media])%list = Exc e \/
       exists cmd, _build_cmd zone (io_fmt io) (io_strftime io) meta
         (out_base ++ [str_Z (year dt); pad2 (month dt); name media])%list = Ok cmd /\
         io_run io cmd = Exc e))) /\
  to_local pacific_offset 1609459200 = Ok (mkDT 2020 12 31 57600).
Proof.
  intros Hj Hm Hts Ht Hn Hdt.
  destruct (to_local_ok zone n dt Hdt) as [Hc _].
  assert (Hmo := local_month zone n dt Hdt).
  split; [exact Hc|]. split; [exact Hmo|]. split; [now apply pad2_length|].
  split; [|reflexivity].
  unfold _process_file. rewrite Hj, Hm. cbn [negb].
  rewrite Hts. cbn [bind]. rewrite Ht. cbn [negb].
  rewrite Hn. cbn [bind]. rewrite Hdt. cbn [bind]. cbv zeta.
  assert (Ht' : (target_dir_of out_base dt ++ [name media])%list
                = (out_base ++ [str_Z (year dt); pad2 (month dt); name media])%list)
    by (unfold target_dir_of; now rewrite <- app_assoc).
  rewrite Ht'.
  destruct (classify _) eqn:Hcl.
  - left. eexists. split; reflexivity.
  - destruct (_build_cmd _ _ _ _ _) as [cmd|e] eqn:Hb; cbn [bind].
    + destruct (io_run io cmd) as [[|]|e] eqn:Hr; cbn [bind].
      * left. eexists. split; reflexivity.
      * left. eexists. split; reflexivity.
      * right. split; [discriminate|]. exists e. split; [reflexivity|]. right. eauto.
    + right. split; [discriminate|]. exists e. split; [reflexivity|]. now left.
  - destruct (_build_cmd _ _ _ _ _) as [cmd|e] eqn:Hb; cbn [bind].
    + destruct (io_run io cmd) as [[|]|e] eqn:Hr; cbn [bind].
      * left. eexists. split; reflexivity.
      * left. eexists. split; reflexivity.
      * right. split; [discriminate|]. exists e. split; [reflexivity|]. right. eauto.
    + right. split; [discriminate|]. exists e. split; [reflexivity|]. now left.
Qed.

Definition sidecar_0001 : jfile :=
  jf "IMG_0001.jpg.json"
     (Some (JObj [("photoTakenTime", JObj [("timestamp", JStr "1609459200")])])).

Lemma process_file_archive_location_witness :
  exists st', _process_file pacific_offset io_ok ["processed"] media_0001
                sidecar_0001 empty_state = Ok st' /\
    files st' = [(["processed"; "2020"; "12"; "IMG_0001.jpg"], media_0001)].
Proof.
  destruct (process_file_archive_location pacific_offset io_ok ["processed"]
              media_0001 sidecar_0001 empty_state
              (JObj [("photoTakenTime", JObj [("timestamp", JStr "1609459200")])])
              (JStr "1609459200") 1609459200 (mkDT 2020 12 31 57600)
              eq_refl eq_refl eq_refl eq_refl eq_refl eq_refl)
    as (_ & _ & _ & [(st' & Hst & Hf) | (_ & e & He & _)] & _).
  - exists st'. split; [exact Hst | rewrite Hf; reflexivity].
  - vm_compute in He. discriminate He.
Defined.

(** ** Timestamp precedence *)

(** C6 (corrected): for a sidecar dict whose [photoTakenTime] is absent or
    a dict, the pipeline takes the [photoTakenTime] timestamp whenever that
    value is truthy, for the archive location ([get_ts]) and the embedded
    dates ([_build_cmd]) alike; when it is absent or falsy ([None], [''],
    [0], [false]) the [creationTime] timestamp is taken. *)
Theorem timestamp_precedence (zone : Z -> Z) (kvs p : list (string * json)) (a : json) :
  lookup_or kvs "photoTakenTime" (JObj []) = JObj p ->
  lookup_or p "timestamp" JNull = a ->
  (truthy a = true ->
     get_ts (JObj kvs) = Ok a /\
     _build_cmd_dates zone (JObj kvs) = Ok (_json_time_to_pacific zone a)) /\
  (truthy a = false -> forall c b,
     lookup_or kvs "creationTime" (JObj []) = JObj c ->
     lookup_or c "timestamp" JNull = b ->
     get_ts (JObj kvs) = Ok b /\
     _build_cmd_dates zone (JObj kvs)
       = Ok (if truthy b then _json_time_to_pacific zone b else None)).
Proof.
  intros Hp Ha. unfold get_ts, _build_cmd_dates. cbn [dict_get bind].
  rewrite Hp. cbn [dict_get bind]. rewrite Ha.
  split.
  - intros Ht. rewrite Ht. split; reflexivity.
  - intros Hf c b Hc Hb. rewrite Hf. cbn [dict_get bind].
    rewrite Hc. cbn [dict_get bind]. rewrite Hb.
    split; [reflexivity | now destruct (truthy b)].
Qed.

Definition meta_both : json :=
  JObj [("photoTakenTime", JObj [("timestamp", JStr "1609459200")]);
        ("creationTime", JObj [("timestamp", JStr "1262304000")])].

Lemma timestamp_precedence_witness :
  get_ts meta_both = Ok (JStr "1609459200") /\
  _build_cmd_dates pacific_offset meta_both
    = Ok (_json_time_to_pacific pacific_offset (JStr "1609459200")).
Proof.
  apply (proj1 (timestamp_precedence pacific_offset
    [("photoTakenTime", JObj [("timestamp", JStr "1609459200")]);
     ("creationTime", JObj [("timestamp", JStr "1262304000")])]
    [("timestamp", JStr "1609459200")] (JStr "1609459200") eq_refl eq_refl)).
  reflexivity.
Defined.

Definition meta_zero_taken : json :=
  JObj [("photoTakenTime", JObj [("timestamp", JInt 0)]);
        ("creationTime", JObj [("timestamp", JStr "1609459200")])].

(** C6 counterexample: [photoTakenTime.timestamp] is [0] (the epoch, whose
    local date is 1969-12-31) and [creationTime.timestamp] is 1609459200;
    the pipeline uses [creationTime] and files the media under 2020/12. *)
Lemma C6_zero_photo_taken_time_ignored :
  get_ts meta_zero_taken = Ok (JStr "1609459200") /\
  to_local pacific_offset 0 = Ok (mkDT 1969 12 31 57600) /\
  option_map files
    (match _process_file pacific_offset io_ok ["processed"] media_0001
             (jf "IMG_0001.jpg.json" (Some meta_zero_taken)) empty_state
     with Ok st => Some st | Exc _ => None end)
  = Some [(["processed"; "2020"; "12"; "IMG_0001.jpg"], media_0001)].
Proof. repeat split; reflexivity. Qed.

(** ** Non-numeric timestamps *)

Definition media_bad : path := ["Photos from 2020"; "IMG_0002.jpg"].
Definition sidecar_bad : jfile :=
  jf "IMG_0002.jpg.json"
     (Some (JObj [("photoTakenTime", JObj [("timestamp", JStr "abc")])])).

(** C7 (code bug): a sidecar whose [photoTakenTime.timestamp] is ['abc']
    makes [int(ts)] in [_process_file] raise [ValueError] outside any
    [try]; it leaves the folder loop, so the next, well-formed file
    [IMG_0001.jpg] is never processed.  The auditor's sibling code catches
    the same [ValueError] and returns [None], and [_json_time_to_pacific]
    turns it into no date. *)
Lemma C7_nonnumeric_timestamp_aborts :
  process_all pacific_offset io_ok ["processed"]
    [sidecar_bad; sidecar_0001] [media_bad; media_0001] empty_state = Exc ValueError /\
  Audit._get_expected_output_path pacific_offset ["processed"] media_bad
    [sidecar_bad; sidecar_0001] = Ok None /\
  _json_time_to_pacific pacific_offset (JStr "abc") = None.
Proof. repeat split; reflexivity. Qed.

(** ** Skips *)

Lemma skipped_not_extended (st : state) (l : list path) (media : path) :
  l = skipped st -> l <> (skipped st ++ [media])%list.
Proof.
  intros -> H. apply (f_equal (@List.length path)) in H.
  rewrite List.length_app in H. simpl in H. lia.
Qed.

(** C8: when handling a media file ends with the file recorded as skipped
    (no sidecar, an unreadable or empty sidecar, no timestamp), no
    directory was created, nothing was copied to the archive and no
    modification time was set. *)
Theorem process_one_skip_writes_nothing (zone : Z -> Z) (io : exif_io)
    (out_base : path) (json_files : list jfile) (st st' : state) (media : path) :
  process_one zone io out_base json_files st media = Ok st' ->
  skipped st' = (skipped st ++ [media])%list ->
  dirs st' = dirs st /\ files st' = files st /\ mtimes st' = mtimes st.
Proof.
  unfold process_one.
  destruct (snd (Processor._match_json media json_files)) as [[[j k]|]|e];
    [| intros [= <-] _; auto | discriminate].
  unfold _process_file.
  destruct (load_json j) as [meta|]; [| intros [= <-] _; auto].
  destruct (negb (truthy meta)); [intros [= <-] _; auto|].
  destruct (get_ts meta) as [ts|e]; cbn [bind]; [|discriminate].
  destruct (negb (truthy ts)); [intros [= <-] _; auto|].
  destruct (py_int ts) as [n|e]; cbn [bind]; [|discriminate].
  destruct (to_local zone n) as [dt|e]; cbn [bind]; [|discriminate].
  exif_cases io; try (let H := fresh in intros H; discriminate H);
    intros [= <-] Hs; exfalso; revert Hs; apply skipped_not_extended; reflexivity.
Qed.

Definition sidecar_no_ts : jfile :=
  jf "IMG_0001.jpg.json" (Some (JObj [("title", JStr "IMG_0001.jpg")])).

Lemma process_one_skip_writes_nothing_witness :
  process_one pacific_offset io_ok ["processed"] [sidecar_no_ts]
    empty_state media_0001 = Ok (skip empty_state media_0001) /\
  dirs (skip empty_state media_0001) = [] /\ files (skip empty_state media_0001) = [] /\
  mtimes (skip empty_state media_0001) = [].
Proof.
  split; [reflexivity|].
  apply (process_one_skip_writes_nothing pacific_offset io_ok ["processed"]
           [sidecar_no_ts] empty_state (skip empty_state media_0001) media_0001);
    reflexivity.
Defined.

(** ** Size band *)

(** C9: for an existing output, the auditor's size comparison accepts
    exactly when [input_size - 32 <= output_size <= input_size + 10240];
    both bounds are accepted, and outside the band it reports a mismatch
    with the bound that is violated. *)
Theorem compare_file_sizes_band (input_size output_size : Z) :
  (fst (Audit._compare_file_sizes true input_size output_size) = true <->
   (input_size - 32 <= output_size /\ output_size <= input_size + 10240)%Z) /\
  ((output_size < input_size - 32)%Z ->
   Audit._compare_file_sizes true input_size output_size = (false, Audit.SmallerBeyond32)) /\
  ((input_size + 10240 < output_size)%Z ->
   Audit._compare_file_sizes true input_size output_size = (false, Audit.LargerBeyond10K)).
Proof.
  unfold Audit._compare_file_sizes. cbn [negb].
  destruct (Z.ltb_spec (output_size - input_size) (-32));
  destruct (Z.ltb_spec 10240 (output_size - input_size)); cbn [fst];
  repeat split; intros; try reflexivity; try lia; try discriminate.
Qed.

Lemma compare_file_sizes_band_witness :
  Audit._compare_file_sizes true 1000 967 = (false, Audit.SmallerBeyond32) /\
  Audit._compare_file_sizes true 1000 11241 = (false, Audit.LargerBeyond10K) /\
  fst (Audit._compare_file_sizes true 1000 968) = true /\
  fst (Audit._compare_file_sizes true 1000 11240) = true.
Proof.
  split; [apply (proj1 (proj2 (compare_file_sizes_band 1000 967))); lia|].
  split; [apply (proj2 (proj2 (compare_file_sizes_band 1000 11241))); lia|].
  split; apply (proj1 (compare_file_sizes_band _ _)); lia.
Defined.

(** ** Format classification *)

Lemma mem_In (x : string) (l : list string) : mem x l = true <-> In x l.
Proof.
  unfold mem. rewrite existsb_exists. split.
  - intros (y & Hy & He). apply String.eqb_eq in He. now subst.
  - intros H. exists x. split; [exact H | apply String.eqb_refl].
Qed.

(** C10: [WRITABLE_FORMATS] and [READ_ONLY_FORMATS] are disjoint and their
    union is [MEDIA_EXTS]; hence every media file [_process_folder]
    enumerates takes the read-only or the writable branch of
    [_process_file], never the branch for unknown formats. *)
Theorem formats_partition_media :
  (forall e, mem e WRITABLE_FORMATS && mem e READ_ONLY_FORMATS = false) /\
  (forall e, mem e MEDIA_EXTS = mem e WRITABLE_FORMATS || mem e READ_ONLY_FORMATS) /\
  (forall entries,
     forallb (fun p => match classify (lower (suffix (name p))) with
                       | UnknownBranch => false | _ => true end)
             (media_files entries) = true).
Proof.
  assert (Hdisj : forall e, mem e WRITABLE_FORMATS && mem e READ_ONLY_FORMATS = false).
  { intros e. apply not_true_iff_false. intros H.
    apply andb_prop in H as [Hw Hr]. apply mem_In in Hw, Hr.
    simpl in Hw, Hr. intuition congruence. }
  assert (Hunion : forall e, mem e MEDIA_EXTS = mem e WRITABLE_FORMATS || mem e READ_ONLY_FORMATS).
  { intros e. apply eq_true_iff_eq. rewrite orb_true_iff, !mem_In.
    simpl. intuition. }
  split; [exact Hdisj|]. split; [exact Hunion|].
  intros entries. apply forallb_forall. intros p Hp.
  unfold media_files in Hp. apply filter_In in Hp as [_ Hm].
  rewrite Hunion in Hm. unfold classify.
  destruct (mem _ READ_ONLY_FORMATS); [reflexivity|].
  rewrite orb_false_r in Hm. now rewrite Hm.
Qed.

Lemma formats_partition_media_witness :
  mem ".avi" WRITABLE_FORMATS && mem ".avi" READ_ONLY_FORMATS = false /\
  mem ".heic" MEDIA_EXTS = mem ".heic" WRITABLE_FORMATS || mem ".heic" READ_ONLY_FORMATS /\
  forallb (fun p => match classify (lower (suffix (name p))) with
                    | UnknownBranch => false | _ => true end)
          (media_files [media_0001; ["d"; "clip.AVI"]; ["d"; "x.json"]]) = true.
Proof.
  destruct formats_partition_media as (H1 & H2 & H3).
  split; [apply H1|]. split; [apply H2 | apply H3].
Defined.

(* ================================================================== *)
(** * Further properties of the pipeline and the auditor *)

(** ** One iteration of the pipeline's folder loop *)


(** the three outcomes of handling one media file without an exception *)
Lemma process_one_cases (zone : Z -> Z) (ex : exif_io) (out : path)
    (js : list jfile) (st st' : state) (media : path) :
  process_one zone ex out js st media = Ok st' ->
  st' = skip st media \/
  exists n dt, sidecar_instant zone js media n dt /\
    let d := target_dir_of out dt in
    let t := (d ++ [name media])%list in
    (st' = count_processed (copy2 (mkdir st d) media t) \/
     st' = count_copied_only (utime (copy2 (mkdir st d) media t) t n) media).
Proof.
  unfold process_one.
  destruct (snd (Processor._match_json media js)) as [[[j k]|]|e] eqn:Hmj;
    [| intros [= <-]; now left | discriminate].
  unfold _process_file.
  destruct (load_json j) as [meta|] eqn:Hl; [| intros [= <-]; now left].
  destruct (truthy meta) eqn:Htm; cbn [negb]; [|intros [= <-]; now left].
  destruct (get_ts meta) as [ts|e] eqn:Hg; cbn [bind]; [|discriminate].
  destruct (truthy ts) eqn:Htt; cbn [negb]; [|intros [= <-]; now left].
  destruct (py_int ts) as [n|e] eqn:Hp; cbn [bind]; [|discriminate].
  destruct (to_local zone n) as [dt|e] eqn:Hdt; cbn [bind]; [|discriminate].
  intros H. right. exists n, dt.
  split; [exists j, k, meta, ts; repeat split; assumption|]. cbv zeta.
  exif_cases ex; try discriminate H; injection H as <-; auto.
Qed.

Lemma sidecar_instant_local (zone : Z -> Z) (js : list jfile) (media : path)
    (n : Z) (dt : datetime) :
  sidecar_instant zone js media n dt -> to_local zone n = Ok dt.
Proof. intros (j & k & meta & ts & _ & _ & _ & _ & _ & _ & H). exact H. Qed.

(** [mkdir] creates the directory and some of its ancestors *)
Lemma dir_chain_spec (d p : path) :
  In p (dir_chain d) -> exists k, (1 <= k <= length d)%nat /\ p = firstn k d.
Proof.
  revert p. induction d as [|c d IH]; intros p Hp; [destruct Hp|].
  cbn [dir_chain] in Hp. destruct Hp as [<- | Hp].
  - exists 1%nat. split; [cbn [length]; lia | reflexivity].
  - apply in_map_iff in Hp as (q & <- & Hq).
    destruct (IH q Hq) as (k & Hk & ->).
    exists (S k). split; [cbn [length]; lia | reflexivity].
Qed.

Lemma mkdir_dirs (st : state) (d : path) :
  exists created, dirs (mkdir st d) = (created ++ dirs st)%list /\
    Forall (fun p => exists k, (1 <= k <= length d)%nat /\ p = firstn k d) created.
Proof.
  eexists. split; [reflexivity|].
  apply Forall_forall. intros p Hp.
  apply in_rev in Hp. apply filter_In in Hp as [Hp _].
  now apply dir_chain_spec.
Qed.

Lemma process_one_counts (zone : Z -> Z) (ex : exif_io) (out : path)
    (js : list jfile) (st st' : state) (media : path) :
  process_one zone ex out js st media = Ok st' ->
  (folder_processed st' + folder_copied_only st' + folder_skipped st'
     = S (folder_processed st + folder_copied_only st + folder_skipped st))%nat /\
  (length (files st') + folder_processed st + folder_copied_only st
     = length (files st) + folder_processed st' + folder_copied_only st')%nat /\
  (length (skipped st') + folder_skipped st = length (skipped st) + folder_skipped st')%nat /\
  (length (copied_only_files st') + folder_copied_only st
     = length (copied_only_files st) + folder_copied_only st')%nat.
Proof.
  intros H. apply process_one_cases in H as [-> | (n & dt & _ & [-> | ->])];
    cbn; rewrite ?List.length_app; cbn; lia.
Qed.

(** the year roundtrip [int(str(y)) == y] on 1..9999, checked year by year *)
Fixpoint years_ok (fuel : nat) (y : Z) : bool :=
  match fuel with
  | O => true
  | S f =>
      match int_of_str (str_Z y) with Ok z => (z =? y)%Z | Exc _ => false end
      && years_ok f (y + 1)
  end.

Lemma years_ok_spec (fuel : nat) : forall y z,
  years_ok fuel y = true -> (y <= z < y + Z.of_nat fuel)%Z -> int_of_str (str_Z z) = Ok z.
Proof.
  induction fuel as [|f IH]; intros y z H Hz; [lia|].
  cbn [years_ok] in H. apply andb_prop in H as [H1 H2].
  destruct (Z.eq_dec z y) as [->|Hne].
  - destruct (int_of_str (str_Z y)) as [w|e]; [|discriminate].
    apply Z.eqb_eq in H1. now subst.
  - apply (IH (y + 1)%Z); [exact H2 | lia].
Qed.

Lemma all_years : years_ok (Z.to_nat 9999) 1 = true.
Proof. vm_compute. reflexivity. Qed.

Lemma int_of_str_year (y : Z) : (1 <= y <= 9999)%Z -> int_of_str (str_Z y) = Ok y.
Proof.
  intros Hy. apply (years_ok_spec (Z.to_nat 9999) 1); [exact all_years|].
  rewrite Z2Nat.id by lia. lia.
Qed.

Lemma month_folder_name (m : Z) :
  (1 <= m <= 12)%Z -> two_digits (pad2 m) = true /\ int_of_str (pad2 m) = Ok m.
Proof.
  intros Hm.
  assert (m = 1 \/ m = 2 \/ m = 3 \/ m = 4 \/ m = 5 \/ m = 6 \/ m = 7 \/
          m = 8 \/ m = 9 \/ m = 10 \/ m = 11 \/ m = 12)%Z as Hc by lia.
  repeat destruct Hc as [-> | Hc]; try (split; reflexivity); subst; split; reflexivity.
Qed.


(** ** The pipeline's folder loop *)

(** The folder loop of [_process_folder] gives every media file exactly one
    outcome: when it runs to its end, the per-folder counters processed,
    copied-only and skipped have grown by the number of files together; the
    archive has gained one copy per processed or copied-only file, the
    skipped list one entry per skipped file, and the copied-only list one
    entry per copied-only file. *)
Theorem process_all_counts (zone : Z -> Z) (ex : exif_io) (out : path)
    (js : list jfile) (ms : list path) (st st' : state) :
  process_all zone ex out js ms st = Ok st' ->
  (folder_processed st' + folder_copied_only st' + folder_skipped st'
     = folder_processed st + folder_copied_only st + folder_skipped st + length ms)%nat /\
  (length (files st') + folder_processed st + folder_copied_only st
     = length (files st) + folder_processed st' + folder_copied_only st')%nat /\
  (length (skipped st') + folder_skipped st = length (skipped st) + folder_skipped st')%nat /\
  (length (copied_only_files st') + folder_copied_only st
     = length (copied_only_files st) + folder_copied_only st')%nat.
Proof.
  revert st. induction ms as [|m ms IH]; intros st H.
  - cbn in H. injection H as <-. cbn. lia.
  - cbn [process_all] in H.
    destruct (process_one zone ex out js st m) as [st1|e] eqn:H1; cbn [bind] in H; [|discriminate].
    apply process_one_counts in H1. specialize (IH st1 H). cbn [length]. lia.
Qed.

Lemma process_all_counts_witness :
  exists st', process_all pacific_offset io_ok ["processed"] [sidecar_0001]
    [media_0001; ["Photos from 2020"; "IMG_0003.jpg"]] empty_state = Ok st' /\
  (folder_processed st' + folder_copied_only st' + folder_skipped st' = 0 + 0 + 0 + 2)%nat /\
  (length (files st') + 0 + 0 = 0 + folder_processed st' + folder_copied_only st')%nat.
Proof.
  destruct (process_all pacific_offset io_ok ["processed"] [sidecar_0001]
              [media_0001; ["Photos from 2020"; "IMG_0003.jpg"]] empty_state)
    as [st'|e] eqn:E; [|vm_compute in E; discriminate].
  exists st'. split; [reflexivity|].
  destruct (process_all_counts pacific_offset io_ok ["processed"]
              [sidecar_0001] [media_0001; ["Photos from 2020"; "IMG_0003.jpg"]]
              empty_state st' E) as (H1 & H2 & _).
  split; [exact H1 | exact H2].
Defined.

(** What the folder loop never does: every directory it creates
    ([mkdir(parents=True)]) is [out_base / str(year) / MM] or one of its
    ancestors ([out_base / str(year)], [out_base] and those above it), and
    every copy it makes is [out_base / str(year) / MM / <media name>] of a
    media file of the loop.  The year (in 1..9999) and the month are those
    of the local instant of that media file's own capture timestamp, read
    from the sidecar [_match_json] picks for it, and [MM] is the two-digit
    month 01..12; nothing is written anywhere else. *)
Theorem process_all_archive_layout (zone : Z -> Z) (ex : exif_io) (out : path)
    (js : list jfile) (ms : list path) (st st' : state) :
  process_all zone ex out js ms st = Ok st' ->
  (exists new_dirs, dirs st' = (new_dirs ++ dirs st)%list /\
     Forall (fun d => exists m n dt, In m ms /\ sidecar_instant zone js m n dt /\
               exists k, (1 <= k <= length out + 2)%nat /\
                 d = firstn k (out ++ [str_Z (year dt); pad2 (month dt)])%list) new_dirs) /\
  (exists new_files, files st' = (new_files ++ files st)%list /\
     Forall (fun '(t, src) => In src ms /\ exists n dt, sidecar_instant zone js src n dt /\
               dt = civil_of_seconds (n + zone n) /\
               t = (out ++ [str_Z (year dt); pad2 (month dt); name src])%list /\
               (1 <= year dt <= 9999)%Z /\ (1 <= month dt <= 12)%Z /\
               String.length (pad2 (month dt)) = 2%nat) new_files).
Proof.
  revert st. induction ms as [|m ms IH]; intros st H.
  - cbn in H. injection H as <-. split; exists []; auto.
  - cbn [process_all] in H.
    destruct (process_one zone ex out js st m) as [st1|e] eqn:H1; cbn [bind] in H; [|discriminate].
    destruct (IH st1 H) as [(nd & Hd & Fd) (nf & Hf & Ff)]. clear IH H.
    assert (Fd' : Forall (fun d => exists m' n dt, In m' (m :: ms) /\
               sidecar_instant zone js m' n dt /\
               exists k, (1 <= k <= length out + 2)%nat /\
                 d = firstn k (out ++ [str_Z (year dt); pad2 (month dt)])%list) nd).
    { eapply Forall_impl; [|exact Fd]. intros d (m' & n & dt & Hin & Hx).
      exists m', n, dt. split; [now right | exact Hx]. }
    assert (Ff' : Forall (fun '(t, src) => In src (m :: ms) /\ exists n dt,
               sidecar_instant zone js src n dt /\
               dt = civil_of_seconds (n + zone n) /\
               t = (out ++ [str_Z (year dt); pad2 (month dt); name src])%list /\
               (1 <= year dt <= 9999)%Z /\ (1 <= month dt <= 12)%Z /\
               String.length (pad2 (month dt)) = 2%nat) nf).
    { eapply Forall_impl; [|exact Ff]. intros [t src] [Hin Hx]. split; [now right | exact Hx]. }
    clear Fd Ff.
    apply process_one_cases in H1 as [-> | (n & dt & Hsi & Hst)].
    + split; [exists nd | exists nf]; split; assumption.
    + assert (Hdt := sidecar_instant_local _ _ _ _ _ Hsi).
      destruct (to_local_ok zone n dt Hdt) as [Hc Hy].
      assert (Hm := local_month zone n dt Hdt).
      cbv zeta in Hst.
      destruct (mkdir_dirs st (target_dir_of out dt)) as (cr0 & Hcr & Fcr).
      assert (Hdirs1 : dirs st1 = (cr0 ++ dirs st)%list)
        by (destruct Hst as [-> | ->]; exact Hcr).
      assert (Hfiles1 : files st1 = ((target_dir_of out dt ++ [name m])%list, m) :: files st)
        by (destruct Hst as [-> | ->]; reflexivity).
      split.
      * exists (nd ++ cr0)%list. split.
        { rewrite Hd, Hdirs1, <- app_assoc. reflexivity. }
        apply Forall_app. split; [exact Fd'|].
        eapply Forall_impl; [|exact Fcr]. intros d (k & Hk & ->).
        exists m, n, dt. split; [now left|]. split; [exact Hsi|].
        exists k. unfold target_dir_of in *. rewrite List.length_app in Hk. cbn [length] in Hk.
        split; [lia | reflexivity].
      * exists (nf ++ [((target_dir_of out dt ++ [name m])%list, m)])%list. split.
        { rewrite Hf, Hfiles1, <- app_assoc. reflexivity. }
        apply Forall_app. split; [exact Ff'|].
        constructor; [|constructor]. split; [now left|].
        exists n, dt. repeat split; try assumption; try lia.
        { unfold target_dir_of. now rewrite <- app_assoc. }
        now apply pad2_length.
Qed.

Lemma process_all_archive_layout_witness :
  exists st', process_all pacific_offset io_ok ["processed"] [sidecar_0001]
    [media_0001] empty_state = Ok st' /\
  dirs st' = [["processed"; "2020"; "12"]; ["processed"; "2020"]; ["processed"]] /\
  (exists new_dirs, dirs st' = (new_dirs ++ [])%list /\
     Forall (fun d => exists m n dt, In m [media_0001] /\
               sidecar_instant pacific_offset [sidecar_0001] m n dt /\
               exists k, (1 <= k <= 3)%nat /\
                 d = firstn k (["processed"] ++ [str_Z (year dt); pad2 (month dt)])%list)
            new_dirs) /\
  exists new_files, files st' = (new_files ++ [])%list /\
    Forall (fun '(t, src) => In src [media_0001] /\ exists n dt,
              sidecar_instant pacific_offset [sidecar_0001] src n dt /\
              t = (["processed"] ++ [str_Z (year dt); pad2 (month dt); name src])%list)
           new_files.
Proof.
  destruct (process_all pacific_offset io_ok ["processed"] [sidecar_0001]
              [media_0001] empty_state) as [st'|e] eqn:E; [|vm_compute in E; discriminate].
  exists st'. split; [reflexivity|].
  split; [vm_compute in E; injection E as <-; reflexivity|].
  destruct (process_all_archive_layout pacific_offset io_ok ["processed"]
              [sidecar_0001] [media_0001] empty_state st' E) as [Hd (nf & Hf & Ff)].
  split; [exact Hd|].
  exists nf. split; [exact Hf|].
  eapply Forall_impl; [|exact Ff]. intros [t src] [Hin (n & dt & Hsi & _ & Ht & _)].
  split; [exact Hin|]. exists n, dt. split; [exact Hsi | exact Ht].
Defined.

Lemma copied_only_date_ok (zone : Z -> Z) (out : path) (nm : string) (n : Z) (dt : datetime) :
  to_local zone n = Ok dt ->
  two_digits (pad2 (month dt)) = true /\
  invalid_date_files zone (str_Z (year dt))
    [(pad2 (month dt), [((target_dir_of out dt ++ [nm])%list, n)])] = Ok [].
Proof.
  intros Hdt.
  destruct (to_local_ok zone n dt Hdt) as [_ Hy].
  destruct (month_folder_name (month dt) (local_month zone n dt Hdt)) as [H2 Hm].
  split; [exact H2|].
  cbn [invalid_date_files]. rewrite H2, int_of_str_year by exact Hy. cbn [bind].
  rewrite Hm. cbn [bind invalid_in_folder].
  unfold mtime_invalid. rewrite Hdt, !Z.eqb_refl. cbn [andb negb].
  now rewrite andb_false_r.
Qed.

(** Composition of the pipeline with the auditor's modified-date test: every
    modification time the folder loop sets ([os.utime] on a copied-only
    file) is set on a file [out_base / Y / MM / <name>] whose folders the
    auditor accepts ([MM] matches [^\d{2}$]) and for which its test
    [mtime.year != int(Y) or mtime.month != int(MM)] is false: the auditor
    does not report it as having an invalid modified date. *)
Theorem copied_only_mtimes_pass_date_check (zone : Z -> Z) (ex : exif_io)
    (out : path) (js : list jfile) (ms : list path) (st st' : state) :
  process_all zone ex out js ms st = Ok st' ->
  exists new_mtimes, mtimes st' = (new_mtimes ++ mtimes st)%list /\
    Forall (fun '(t, n) => exists ys mm nm, t = (out ++ [ys; mm; nm])%list /\
              two_digits mm = true /\ invalid_date_files zone ys [(mm, [(t, n)])] = Ok [])
           new_mtimes.
Proof.
  revert st. induction ms as [|m ms IH]; intros st H.
  - cbn in H. injection H as <-. exists []. auto.
  - cbn [process_all] in H.
    destruct (process_one zone ex out js st m) as [st1|e] eqn:H1; cbn [bind] in H; [|discriminate].
    destruct (IH st1 H) as (nm & Hm & Fm). clear IH H.
    apply process_one_cases in H1 as [-> | (n & dt & Hsi & [-> | ->])];
      try assert (Hdt := sidecar_instant_local _ _ _ _ _ Hsi).
    + exists nm. split; assumption.
    + exists nm. split; assumption.
    + exists (nm ++ [((target_dir_of out dt ++ [name m])%list, n)])%list. split.
      { rewrite Hm, <- app_assoc. reflexivity. }
      apply Forall_app. split; [exact Fm|].
      constructor; [|constructor].
      exists (str_Z (year dt)), (pad2 (month dt)), (name m).
      split; [unfold target_dir_of; now rewrite <- app_assoc|].
      now apply copied_only_date_ok.
Qed.

Definition media_avi : path := ["Photos from 2020"; "clip.avi"].
Definition sidecar_avi : jfile :=
  jf "clip.avi.json"
     (Some (JObj [("photoTakenTime", JObj [("timestamp", JStr "1609459200")])])).

Lemma copied_only_mtimes_pass_date_check_witness :
  exists st', process_all pacific_offset io_fail ["processed"] [sidecar_avi]
    [media_avi] empty_state = Ok st' /\
  mtimes st' = [(["processed"; "2020"; "12"; "clip.avi"], 1609459200%Z)] /\
  exists new_mtimes, mtimes st' = (new_mtimes ++ [])%list /\
    Forall (fun '(t, n) => exists ys mm nm, t = (["processed"] ++ [ys; mm; nm])%list /\
              two_digits mm = true /\
              invalid_date_files pacific_offset ys [(mm, [(t, n)])] = Ok [])
           new_mtimes.
Proof.
  destruct (process_all pacific_offset io_fail ["processed"] [sidecar_avi]
              [media_avi] empty_state) as [st'|e] eqn:E; [|vm_compute in E; discriminate].
  exists st'. split; [reflexivity|].
  split; [vm_compute in E; injection E as <-; reflexivity|].
  exact (copied_only_mtimes_pass_date_check pacific_offset io_fail ["processed"]
           [sidecar_avi] [media_avi] empty_state st' E).
Defined.

(** ** The skipped-files list read back by a retry run *)

Lemma las_app (a b : string) :
  list_ascii_of_string (a ++ b) = (list_ascii_of_string a ++ list_ascii_of_string b)%list.
Proof. induction a as [|c a IH]; cbn; [reflexivity | now rewrite IH]. Qed.

Lemma append_empty (a : string) : (a ++ "")%string = a.
Proof. induction a as [|c a IH]; cbn; [reflexivity | now rewrite IH]. Qed.

Lemma lines_nonnil (s : string) : lines s <> [].
Proof.
  destruct s as [|c s]; cbn [lines]; [discriminate|].
  destruct (Ascii.eqb c nl); [discriminate|].
  destruct (Ascii.eqb c cr); [destruct s as [|c2 s]; [|destruct (Ascii.eqb c2 nl)]; discriminate|].
  destruct (lines s); discriminate.
Qed.

Lemma lines_cons (s : string) : lines s = hd "" (lines s) :: tl (lines s).
Proof. pose proof (lines_nonnil s). destruct (lines s); [contradiction | reflexivity]. Qed.

Lemma lines_app (x rest : string) :
  forallb (fun a => negb (Ascii.eqb a nl || Ascii.eqb a cr)) (list_ascii_of_string x) = true ->
  lines (x ++ rest) = (x ++ hd "" (lines rest))%string :: tl (lines rest).
Proof.
  induction x as [|c x IH]; intros H; cbn [append]; [apply lines_cons|].
  cbn [forallb list_ascii_of_string] in H. apply andb_prop in H as [Hc H].
  apply negb_true_iff, orb_false_iff in Hc as [E1 E2].
  cbn [lines]. rewrite E1, E2, (IH H). reflexivity.
Qed.

Lemma split_nonnil (c : ascii) (s : string) : split_on c s <> [].
Proof.
  destruct s as [|x s]; cbn [split_on]; [discriminate|].
  destruct (Ascii.eqb x c); [discriminate|]. destruct (split_on c s); discriminate.
Qed.

Lemma split_cons (c : ascii) (s : string) : split_on c s = hd "" (split_on c s) :: tl (split_on c s).
Proof. pose proof (split_nonnil c s). destruct (split_on c s); [contradiction | reflexivity]. Qed.

Lemma split_app (c : ascii) (x rest : string) :
  forallb (fun a => negb (Ascii.eqb a c)) (list_ascii_of_string x) = true ->
  split_on c (x ++ rest) = (x ++ hd "" (split_on c rest))%string :: tl (split_on c rest).
Proof.
  induction x as [|a x IH]; intros H; cbn [append]; [apply split_cons|].
  cbn [forallb list_ascii_of_string] in H. apply andb_prop in H as [Ha H].
  apply negb_true_iff in Ha.
  cbn [split_on]. rewrite Ha, (IH H). reflexivity.
Qed.

Lemma lines_concat (xs : list string) :
  xs <> [] ->
  Forall (fun x => forallb (fun a => negb (Ascii.eqb a nl || Ascii.eqb a cr))
                           (list_ascii_of_string x) = true) xs ->
  lines (String.concat (String nl EmptyString) xs) = xs.
Proof.
  induction xs as [|x xs IH]; intros Hne Hx; [contradiction|].
  inversion Hx as [|? ? Hx1 Hxs]; subst.
  destruct xs as [|y ys].
  - cbn [String.concat]. rewrite <- (append_empty x) at 1.
    rewrite (lines_app x "" Hx1). cbn [lines hd tl]. now rewrite append_empty.
  - change (String.concat (String nl EmptyString) (x :: y :: ys))
      with (x ++ String nl (String.concat (String nl EmptyString) (y :: ys)))%string.
    rewrite (lines_app _ _ Hx1). cbn [lines].
    rewrite Ascii.eqb_refl. cbn [hd tl].
    rewrite append_empty, IH; [reflexivity | discriminate | exact Hxs].
Qed.

Lemma split_concat (c : ascii) (xs : list string) :
  xs <> [] ->
  Forall (fun x => forallb (fun a => negb (Ascii.eqb a c)) (list_ascii_of_string x) = true) xs ->
  split_on c (String.concat (String c EmptyString) xs) = xs.
Proof.
  induction xs as [|x xs IH]; intros Hne Hx; [contradiction|].
  inversion Hx as [|? ? Hx1 Hxs]; subst.
  destruct xs as [|y ys].
  - cbn [String.concat]. rewrite <- (append_empty x) at 1.
    rewrite (split_app c x "" Hx1). cbn [split_on hd tl]. now rewrite append_empty.
  - change (String.concat (String c EmptyString) (x :: y :: ys))
      with (x ++ String c (String.concat (String c EmptyString) (y :: ys)))%string.
    rewrite (split_app _ _ _ Hx1). cbn [split_on].
    rewrite Ascii.eqb_refl. cbn [hd tl].
    rewrite append_empty, IH; [reflexivity | discriminate | exact Hxs].
Qed.

Lemma forallb_las_concat (f : ascii -> bool) (sep : string) (xs : list string) :
  forallb f (list_ascii_of_string sep) = true ->
  Forall (fun x => forallb f (list_ascii_of_string x) = true) xs ->
  forallb f (list_ascii_of_string (String.concat sep xs)) = true.
Proof.
  intros Hs Hx. induction Hx as [|x xs Hx1 Hxs IH]; [reflexivity|].
  destruct xs as [|y ys]; [exact Hx1|].
  change (String.concat sep (x :: y :: ys)) with (x ++ sep ++ String.concat sep (y :: ys))%string.
  rewrite !las_app, !forallb_app, Hx1, Hs, IH. reflexivity.
Qed.

Lemma last_in {A} (l : list A) (d : A) : l <> [] -> In (last l d) l.
Proof.
  induction l as [|x l IH]; intros H; [contradiction|].
  destruct l as [|y l]; [now left|].
  right. apply IH. discriminate.
Qed.

Lemma last_filter {A} (f : A -> bool) (l : list A) (d : A) :
  l <> [] -> f (last l d) = true -> last (filter f l) d = last l d.
Proof.
  induction l as [|x l IH]; intros Hne Hf; [contradiction|].
  destruct l as [|y l].
  - cbn in *. now rewrite Hf.
  - assert (Hin : In (last (y :: l) d) (filter f (y :: l))).
    { apply filter_In. split; [|exact Hf]. apply last_in. discriminate. }
    change (last (x :: y :: l) d) with (last (y :: l) d) in *.
    change (filter f (x :: y :: l))
      with (if f x then x :: filter f (y :: l) else filter f (y :: l)).
    rewrite <- (IH ltac:(discriminate) Hf).
    destruct (f x); [|reflexivity].
    destruct (filter f (y :: l)); [contradiction | reflexivity].
Qed.

Lemma clean_component_parts (c : string) :
  clean_component c = true ->
  forallb (fun a => negb (Ascii.eqb a nl || Ascii.eqb a cr)) (list_ascii_of_string c) = true /\
  forallb (fun a => negb (Ascii.eqb a "/")) (list_ascii_of_string c) = true.
Proof.
  unfold clean_component. rewrite !forallb_forall. intros H.
  split; intros a Ha; specialize (H a Ha);
    destruct (Ascii.eqb a "/"), (Ascii.eqb a nl), (Ascii.eqb a cr); easy.
Qed.

Lemma path_name_of_str (p : path) :
  forallb clean_component p = true -> name p <> "" -> name p <> "." ->
  path_name (path_str p) = name p.
Proof.
  intros Hc Hn Hd.
  assert (Hne : p <> []) by (intros ->; now apply Hn).
  unfold path_name, path_str.
  rewrite split_concat; [| exact Hne |].
  - apply last_filter; [exact Hne|].
    unfold name in Hn, Hd.
    destruct (String.eqb (last p "") "") eqn:E1; [apply String.eqb_eq in E1; contradiction|].
    destruct (String.eqb (last p "") ".") eqn:E2; [apply String.eqb_eq in E2; contradiction|].
    reflexivity.
  - apply Forall_forall. intros x Hx. rewrite forallb_forall in Hc.
    exact (proj2 (clean_component_parts x (Hc x Hx))).
Qed.

Lemma path_str_lines_clean (p : path) :
  forallb clean_component p = true ->
  forallb (fun a => negb (Ascii.eqb a nl || Ascii.eqb a cr)) (list_ascii_of_string (path_str p)) = true.
Proof.
  intros Hc. apply forallb_las_concat; [reflexivity|].
  apply Forall_forall. intros x Hx. rewrite forallb_forall in Hc.
  exact (proj1 (clean_component_parts x (Hc x Hx))).
Qed.

(** a path the retry run reads back as it was written: no component holds
    ['/'], ['\n'] or ['\r'], its name is not empty nor ['.'], and its
    string form has no leading or trailing whitespace *)
Definition readable_path (p : path) : Prop :=
  forallb clean_component p = true /\ name p <> "" /\ name p <> "." /\
  strip (path_str p) = path_str p.

(** Round trip of the skipped-files list: when [run] writes
    ['\n'.join(self.skipped)] and a later run with [--skipped-files-folder]
    reads that file back, the set of names it builds is exactly the names
    of the skipped media files, so the retry run processes exactly the
    media files that share a name with a skipped one (provided no skipped
    path contains a separator or line break in a component, ends in an
    empty or ['.'] name, or starts or ends with whitespace). *)
Theorem skipped_list_round_trip (sk ms : list path) :
  Forall readable_path sk ->
  retry_names (skipped_text sk) = map name sk /\
  retry_filter (retry_names (skipped_text sk)) ms
    = filter (fun m => existsb (fun q => String.eqb (name m) (name q)) sk) ms.
Proof.
  intros Hsk.
  assert (Hgen : forall l, Forall readable_path l ->
    map (fun x => path_name (strip x))
        (filter (fun x => negb (String.eqb (strip x) "")) (map path_str l)) = map name l).
  { induction 1 as [|p l (Hc & Hn & Hd & Hs) Hl IH]; [reflexivity|].
    cbn [map filter]. rewrite Hs.
    destruct (String.eqb (path_str p) "") eqn:E.
    - exfalso. apply String.eqb_eq in E. apply Hn.
      rewrite <- (path_name_of_str p Hc Hn Hd), E. reflexivity.
    - cbn [negb map]. rewrite IH, Hs, (path_name_of_str p Hc Hn Hd). reflexivity. }
  assert (Hnames : retry_names (skipped_text sk) = map name sk).
  { unfold retry_names, skipped_text.
    destruct sk as [|p0 sk0]; [reflexivity|].
    rewrite lines_concat.
    - exact (Hgen _ Hsk).
    - discriminate.
    - apply Forall_map. eapply Forall_impl; [|exact Hsk].
      intros p (Hc & _ & _ & _). now apply path_str_lines_clean. }
  split; [exact Hnames|].
  rewrite Hnames. unfold retry_filter, mem.
  apply filter_ext. intros m. clear Hsk Hnames Hgen.
  induction sk as [|q sk IH]; [reflexivity|].
  cbn [map existsb]. now rewrite IH.
Qed.

Definition skipped_jpg : path := [""; "home"; "Photos from 2020"; "IMG 1.jpg"].
Definition skipped_mov : path := [""; "home"; "Photos from 2020"; "trip"; "clip.mov"].
Definition retry_media : list path :=
  [[""; "home"; "Photos from 2020"; "IMG 1.jpg"];
   [""; "home"; "Photos from 2020"; "IMG 2.jpg"];
   [""; "home"; "Photos from 2020"; "copy"; "IMG 1.jpg"];
   [""; "home"; "Photos from 2020"; "trip"; "clip.mov"]].

Lemma skipped_list_round_trip_witness :
  Forall readable_path [skipped_jpg; skipped_mov] /\
  retry_names (skipped_text [skipped_jpg; skipped_mov]) = ["IMG 1.jpg"; "clip.mov"] /\
  retry_filter (retry_names (skipped_text [skipped_jpg; skipped_mov])) retry_media
    = [[""; "home"; "Photos from 2020"; "IMG 1.jpg"];
       [""; "home"; "Photos from 2020"; "copy"; "IMG 1.jpg"];
       [""; "home"; "Photos from 2020"; "trip"; "clip.mov"]].
Proof.
  assert (H : Forall readable_path [skipped_jpg; skipped_mov]).
  { repeat constructor; try reflexivity; discriminate. }
  destruct (skipped_list_round_trip [skipped_jpg; skipped_mov] retry_media H) as [H1 H2].
  split; [exact H|]. split; [exact H1|].
  rewrite H2. reflexivity.
Defined.

(** ** The auditor's year loop *)

(** one iteration: the sidecar it consumes and the expected output path it
    computes, and where the media file is counted *)
Lemma check_media_step (zone : Z -> Z) (out : path) (ex : path -> bool) (sz : path -> Z)
    (js : list jfile) (r r' : vresult) (c c' : list path) (m : path) :
  check_media zone out ex sz js (r, c) m = Ok (r', c') ->
  exists o e,
    snd (Validator._find_json_for_media m js) = Ok o /\
    c' = match o with Some j => jpath j :: c | None => c end /\
    Audit._get_expected_output_path zone out m js = Ok e /\
    total_input_files r' = total_input_files r /\
    match e with
    | None => r' = add_error r m
    | Some p =>
        (ex p = false /\ r' = add_missing r m) \/
        (ex p = true /\
         (r' = add_match r \/ exists v, r' = add_mismatch r (m, p, v)))
    end.
Proof.
  unfold check_media.
  destruct (snd (Validator._find_json_for_media m js)) as [o|x]; cbn [bind]; [|discriminate].
  destruct (Audit._get_expected_output_path zone out m js) as [e|x]; cbn [bind]; [|discriminate].
  intros H. exists o, e.
  destruct e as [p|].
  - destruct (ex p) eqn:Ep; cbn [negb] in H.
    + destruct (Audit._compare_file_sizes true (sz m) (sz p)) as [[|] v];
        injection H as <- <-; repeat split; auto; right; split; auto.
      right. now exists v.
    + injection H as <- <-. repeat split; auto.
  - injection H as <- <-. repeat split; auto.
Qed.

(** counters balanced up to [k] files still to be seen *)
Definition balanced_up_to (r : vresult) (k : nat) : Prop :=
  total_input_files r
    = (found_in_output r + List.length (missing_files r) + List.length (errors r) + k)%nat /\
  found_in_output r = (content_matches r + content_mismatches r)%nat /\
  List.length (mismatch_files r) = content_mismatches r.

Lemma check_all_balanced (zone : Z -> Z) (out : path) (ex : path -> bool) (sz : path -> Z)
    (js : list jfile) (ms : list path) : forall r c r' c',
  balanced_up_to r (length ms) ->
  check_all zone out ex sz js (r, c) ms = Ok (r', c') ->
  balanced_up_to r' 0 /\ total_input_files r' = total_input_files r.
Proof.
  induction ms as [|m ms IH]; intros r c r' c' Hb H.
  - cbn in H. injection H as <- <-. auto.
  - cbn [check_all] in H.
    destruct (check_media zone out ex sz js (r, c) m) as [[r1 c1]|x] eqn:H1;
      cbn [bind] in H; [|discriminate].
    apply check_media_step in H1 as (o & e & _ & _ & _ & Ht & He).
    assert (Hb1 : balanced_up_to r1 (length ms)).
    { unfold balanced_up_to in *. cbn [length] in Hb.
      destruct e as [p|];
        [destruct He as [(_ & ->) | (_ & [-> | (v & ->)])] | rewrite He];
        cbn; rewrite ?List.length_app; cbn; lia. }
    destruct (IH r1 c1 r' c' Hb1 H) as [Hb' Ht']. split; [exact Hb'|]. lia.
Qed.

(** The auditor's accounting: when [_validate_year_folder] runs to its
    end, every media file of the year is counted exactly once, as found in
    the output, missing from the output, or an error ("Could not determine
    output path"); found files are split into size matches and
    mismatches, and each mismatch is listed once.  So the counters stay
    balanced from one year to the next: [total_input_files] grows by the
    number of media files and equals found + missing + errors. *)
Theorem validate_year_balanced (zone : Z -> Z) (out : path) (ex : path -> bool) (sz : path -> Z)
    (js : list jfile) (ms : list path) (r r' : vresult) (orph : list jfile) (np : list path) :
  balanced r ->
  validate_year zone out ex sz js ms r = Ok (r', orph, np) ->
  balanced r' /\ total_input_files r' = (total_input_files r + length ms)%nat.
Proof.
  intros Hb H. unfold validate_year in H.
  destruct (check_all zone out ex sz js (add_total r (length ms), []) ms) as [[r1 c1]|x] eqn:H1;
    cbn [bind] in H; [|discriminate].
  destruct (not_present zone out js ms) as [np1|x]; cbn [bind] in H; [|discriminate].
  injection H as <- _ _.
  apply check_all_balanced in H1 as [Hb1 Ht1].
  - unfold balanced_up_to, balanced in *. cbn [add_total total_input_files] in Ht1.
    split; [lia | exact Ht1].
  - unfold balanced, balanced_up_to in *. cbn. lia.
Qed.

Lemma validate_year_balanced_witness :
  exists r' orph np,
    validate_year pacific_offset ["processed"] (fun _ => true) (fun _ => 1000%Z)
      [sidecar_0001] [media_0001; ["Photos from 2020"; "IMG_0003.jpg"]] empty_result
    = Ok (r', orph, np) /\
    balanced r' /\ total_input_files r' = 2%nat.
Proof.
  destruct (validate_year pacific_offset ["processed"] (fun _ => true) (fun _ => 1000%Z)
              [sidecar_0001] [media_0001; ["Photos from 2020"; "IMG_0003.jpg"]] empty_result)
    as [[[r' orph] np]|x] eqn:E; [|vm_compute in E; discriminate].
  exists r', orph, np. split; [reflexivity|].
  apply (validate_year_balanced pacific_offset ["processed"] (fun _ => true) (fun _ => 1000%Z)
           [sidecar_0001] [media_0001; ["Photos from 2020"; "IMG_0003.jpg"]] empty_result
           r' orph np); [|exact E].
  repeat split.
Defined.

Lemma path_eqb_eq (p q : path) : path_eqb p q = true <-> p = q.
Proof. unfold path_eqb. destruct (list_eq_dec string_dec p q); split; congruence. Qed.

Lemma check_all_consumed (zone : Z -> Z) (out : path) (ex : path -> bool) (sz : path -> Z)
    (js : list jfile) (ms : list path) : forall r c r' c',
  check_all zone out ex sz js (r, c) ms = Ok (r', c') ->
  forall p, In p c' <->
    In p c \/ exists m j, In m ms /\ snd (Validator._find_json_for_media m js) = Ok (Some j) /\
                          jpath j = p.
Proof.
  induction ms as [|m ms IH]; intros r c r' c' H p.
  - cbn in H. injection H as <- <-. split; [now left|].
    intros [H|(m & j & [] & _)]. exact H.
  - cbn [check_all] in H.
    destruct (check_media zone out ex sz js (r, c) m) as [[r1 c1]|x] eqn:H1;
      cbn [bind] in H; [|discriminate].
    apply check_media_step in H1 as (o & e & Ho & Hc & _).
    rewrite (IH r1 c1 r' c' H p). subst c1. split.
    + intros [Hin | (m' & j & Hm & Hj & Hp)].
      * destruct o as [j|]; [destruct Hin as [<- | Hin]|].
        -- right. exists m, j. split; [now left | auto].
        -- now left.
        -- now left.
      * right. exists m', j. split; [now right | auto].
    + intros [Hin | (m' & j & [<- | Hm] & Hj & Hp)].
      * left. destruct o; [now right | exact Hin].
      * left. rewrite Ho in Hj. injection Hj as ->. now left.
      * right. exists m', j. auto.
Qed.

(** Orphan sidecars: when [_validate_year_folder] runs to its end, a
    sidecar of the year is reported as an orphan exactly when the auditor's
    resolver [_find_json_for_media] returned it (by path) for none of the
    year's media files; a sidecar some media file resolved to is never an
    orphan. *)
Theorem validate_year_orphans (zone : Z -> Z) (out : path) (ex : path -> bool) (sz : path -> Z)
    (js : list jfile) (ms : list path) (r r' : vresult) (orph : list jfile) (np : list path) :
  validate_year zone out ex sz js ms r = Ok (r', orph, np) ->
  forall j, In j orph <->
    In j js /\ ~ exists m j', In m ms /\
                  snd (Validator._find_json_for_media m js) = Ok (Some j') /\
                  jpath j' = jpath j.
Proof.
  intros H j. unfold validate_year in H.
  destruct (check_all zone out ex sz js (add_total r (length ms), []) ms) as [[r1 c1]|x] eqn:H1;
    cbn [bind] in H; [|discriminate].
  destruct (not_present zone out js ms) as [np1|x]; cbn [bind] in H; [|discriminate].
  injection H as _ <- _.
  unfold orphan_jsons. rewrite filter_In, negb_true_iff.
  assert (Hc := check_all_consumed zone out ex sz js ms _ _ r1 c1 H1 (jpath j)).
  split; intros [Hj Hx]; split; try exact Hj.
  - intros Hex. assert (Hin : In (jpath j) c1) by (apply Hc; now right).
    assert (Ht : existsb (path_eqb (jpath j)) c1 = true).
    { apply existsb_exists. exists (jpath j). split; [exact Hin | now apply path_eqb_eq]. }
    congruence.
  - apply not_true_iff_false. intros He.
    apply existsb_exists in He as (p & Hp & Hpe). apply path_eqb_eq in Hpe. subst p.
    apply Hc in Hp as [[] | Hex]. exact (Hx Hex).
Qed.

Definition sidecar_0009 : jfile := jf "IMG_0009.jpg.json" None.

Lemma validate_year_orphans_witness :
  exists r' orph np,
    validate_year pacific_offset ["processed"] (fun _ => true) (fun _ => 1000%Z)
      [sidecar_0001; sidecar_0009] [media_0001] empty_result = Ok (r', orph, np) /\
    ~ In sidecar_0001 orph.
Proof.
  destruct (validate_year pacific_offset ["processed"] (fun _ => true) (fun _ => 1000%Z)
              [sidecar_0001; sidecar_0009] [media_0001] empty_result)
    as [[[r' orph] np]|x] eqn:E; [|vm_compute in E; discriminate].
  exists r', orph, np. split; [reflexivity|].
  intros Hin.
  apply (proj1 (validate_year_orphans pacific_offset ["processed"] (fun _ => true)
                  (fun _ => 1000%Z) [sidecar_0001; sidecar_0009] [media_0001] empty_result
                  r' orph np E sidecar_0001)) in Hin as [_ Hn].
  apply Hn. exists media_0001, sidecar_0001.
  split; [now left|]. split; [vm_compute; reflexivity | reflexivity].
Defined.

Lemma check_all_errors (zone : Z -> Z) (out : path) (ex : path -> bool) (sz : path -> Z)
    (js : list jfile) (ms : list path) : forall r c r' c' np,
  check_all zone out ex sz js (r, c) ms = Ok (r', c') ->
  not_present zone out js ms = Ok np ->
  errors r' = (errors r ++ np)%list /\
  (forall m, In m (missing_files r') ->
     In m (missing_files r) \/
     (In m ms /\ exists p, Audit._get_expected_output_path zone out m js = Ok (Some p) /\
                           ex p = false)).
Proof.
  induction ms as [|m ms IH]; intros r c r' c' np H Hnp.
  - cbn in H, Hnp. injection H as <- <-. injection Hnp as <-.
    rewrite app_nil_r. split; [reflexivity | now left].
  - cbn [check_all] in H.
    destruct (check_media zone out ex sz js (r, c) m) as [[r1 c1]|x] eqn:H1;
      cbn [bind] in H; [|discriminate].
    apply check_media_step in H1 as (o & e & _ & _ & He & _ & Hr).
    cbn [not_present] in Hnp. rewrite He in Hnp. cbn [bind] in Hnp.
    destruct (not_present zone out js ms) as [rest|x]; cbn [bind] in Hnp; [|discriminate].
    destruct (IH r1 c1 r' c' rest H eq_refl) as [Herr Hmiss].
    assert (Hmiss' : forall x, In x (missing_files r') ->
       In x (missing_files r) \/
       (In x (m :: ms) /\ exists p, Audit._get_expected_output_path zone out x js = Ok (Some p) /\
                                    ex p = false)).
    { intros x Hx. destruct (Hmiss x Hx) as [Hx1 | (Hin & Hp)]; [| right; split; [now right | exact Hp]].
      destruct e as [p|]; [destruct Hr as [(Hp & ->) | (_ & [-> | (v & ->)])] | rewrite Hr in Hx1];
        cbn [missing_files add_missing add_match add_mismatch add_error] in Hx1; try (now left).
      apply in_app_or in Hx1 as [Hx1 | [<- | []]]; [now left|].
      right. split; [now left | exists p; split; assumption]. }
    split; [|exact Hmiss'].
    destruct e as [p|].
    + injection Hnp as <-. rewrite Herr.
      destruct Hr as [(_ & ->) | (_ & [-> | (v & ->)])]; reflexivity.
    + injection Hnp as <-. rewrite Herr, Hr. cbn. now rewrite <- app_assoc.
Qed.

Lemma not_present_In (zone : Z -> Z) (out : path) (js : list jfile) (ms : list path) :
  forall np, not_present zone out js ms = Ok np ->
  forall m, In m np <-> In m ms /\ Audit._get_expected_output_path zone out m js = Ok None.
Proof.
  induction ms as [|m0 ms IH]; intros np H m.
  - cbn in H. injection H as <-. split; [intros [] | intros [[] _]].
  - cbn [not_present] in H.
    destruct (Audit._get_expected_output_path zone out m0 js) as [o|x] eqn:Ho;
      cbn [bind] in H; [|discriminate].
    destruct (not_present zone out js ms) as [rest|x]; cbn [bind] in H; [|discriminate].
    specialize (IH rest eq_refl m).
    destruct o as [p|]; injection H as <-.
    + rewrite IH. split.
      * intros [Hm Hn]. split; [now right | exact Hn].
      * intros [[<- | Hm] Hn]; [congruence | split; assumption].
    + cbn [In]. rewrite IH. split.
      * intros [<- | [Hm Hn]]; split; auto.
      * intros [[<- | Hm] Hn]; [now left | right; split; assumption].
Qed.

(** The not-present report of a year ([<year>_validation_result_not_present.txt],
    and its count in the year summary) lists exactly the media files whose
    expected output path could not be determined: the same files, in the
    same order, that the loop adds to [errors].  A media file counted as
    missing from the output (its expected path is known but does not
    exist) is never in that report. *)
Theorem validate_year_not_present (zone : Z -> Z) (out : path) (ex : path -> bool) (sz : path -> Z)
    (js : list jfile) (ms : list path) (r r' : vresult) (orph : list jfile) (np : list path) :
  validate_year zone out ex sz js ms r = Ok (r', orph, np) ->
  errors r' = (errors r ++ np)%list /\
  (forall m, In m np <-> In m ms /\ Audit._get_expected_output_path zone out m js = Ok None) /\
  (forall m, In m (missing_files r') -> ~ In m (missing_files r) -> ~ In m np).
Proof.
  intros H. unfold validate_year in H.
  destruct (check_all zone out ex sz js (add_total r (length ms), []) ms) as [[r1 c1]|x] eqn:H1;
    cbn [bind] in H; [|discriminate].
  destruct (not_present zone out js ms) as [np1|x] eqn:Hnp; cbn [bind] in H; [|discriminate].
  injection H as <- _ <-.
  destruct (check_all_errors zone out ex sz js ms _ _ r1 c1 np1 H1 Hnp) as [Herr Hmiss].
  assert (Hin := not_present_In zone out js ms np1 Hnp).
  split; [exact Herr|]. split; [exact Hin|].
  intros m Hm Hnot Hnp1.
  destruct (Hmiss m Hm) as [Hold | (_ & p & Hp & _)]; [exact (Hnot Hold)|].
  apply Hin in Hnp1 as [_ HNone]. congruence.
Qed.

Definition media_0004 : path := ["Photos from 2020"; "IMG_0004.jpg"].
Definition sidecar_0004 : jfile :=
  jf "IMG_0004.jpg.json"
     (Some (JObj [("photoTakenTime", JObj [("timestamp", JStr "1609459200")])])).

Lemma validate_year_not_present_witness :
  exists r' orph np,
    validate_year pacific_offset ["processed"] (fun _ => false) (fun _ => 1000%Z)
      [sidecar_0004] [media_0004; ["Photos from 2020"; "IMG_0003.jpg"]] empty_result
    = Ok (r', orph, np) /\
    missing_files r' = [media_0004] /\ ~ In media_0004 np /\
    errors r' = np.
Proof.
  destruct (validate_year pacific_offset ["processed"] (fun _ => false) (fun _ => 1000%Z)
              [sidecar_0004] [media_0004; ["Photos from 2020"; "IMG_0003.jpg"]] empty_result)
    as [[[r' orph] np]|x] eqn:E; [|vm_compute in E; discriminate].
  exists r', orph, np. split; [reflexivity|].
  destruct (validate_year_not_present pacific_offset ["processed"] (fun _ => false)
              (fun _ => 1000%Z) [sidecar_0004] [media_0004; ["Photos from 2020"; "IMG_0003.jpg"]]
              empty_result r' orph np E) as (Herr & _ & Hmiss).
  assert (Hm : missing_files r' = [media_0004]) by (vm_compute in E; injection E as <- _ _; reflexivity).
  split; [exact Hm|]. split.
  - apply Hmiss; [rewrite Hm; now left | intros []].
  - exact Herr.
Defined.

(** ** The auditor's expected location against the pipeline's copy *)

Lemma get_ts_find_timestamp (meta t : json) :
  get_ts meta = Ok t -> truthy t = true ->
  Audit.find_timestamp ["photoTakenTime"; "creationTime"] meta JNull = Ok t.
Proof.
  destruct meta as [| | | | |kvs]; try discriminate.
  unfold get_ts, Audit.find_timestamp, Audit.py_in, Audit.subscript.
  cbn [dict_get bind]. unfold lookup_or.
  destruct (assoc_last "photoTakenTime" kvs) as [v|];
    destruct (assoc_last "creationTime" kvs) as [w|]; cbn [bind dict_get lookup_or assoc_last].
  - destruct (dict_get v "timestamp" JNull) as [a|x]; cbn [bind]; [|discriminate].
    destruct (truthy a); [tauto|].
    destruct (dict_get w "timestamp" JNull) as [b|x]; cbn [bind]; [|discriminate].
    intros [= ->] ->. reflexivity.
  - destruct (dict_get v "timestamp" JNull) as [a|x]; cbn [bind]; [|discriminate].
    destruct (truthy a); [tauto|]. intros [= <-]. discriminate.
  - destruct (dict_get w "timestamp" JNull) as [b|x]; cbn [bind]; [|discriminate].
    intros [= ->] ->. reflexivity.
  - intros [= <-]. discriminate.
Qed.

(** Composition of the auditor with the pipeline: when both resolvers pick
    the same sidecar for a media file and the pipeline's folder loop copies
    the file (does not skip it), the auditor's expected output path is
    exactly where the pipeline put the copy, so the auditor does not count
    the file as missing. *)
Theorem audit_expects_archive_copy (zone : Z -> Z) (ex : exif_io) (out : path)
    (js : list jfile) (media : path) (j : jfile) (k : nat) (st st' : state) :
  snd (Processor._match_json media js) = Ok (Some (j, k)) ->
  snd (Validator._find_json_for_media media js) = Ok (Some j) ->
  process_one zone ex out js st media = Ok st' ->
  files st' <> files st ->
  exists p, Audit._get_expected_output_path zone out media js = Ok (Some p) /\
            files st' = (p, media) :: files st.
Proof.
  intros Hp Hv. unfold process_one. rewrite Hp. unfold _process_file.
  unfold Audit._get_expected_output_path. rewrite Hv. cbn [bind].
  destruct (load_json j) as [meta|]; [| intros [= <-]; now destruct 1].
  destruct (truthy meta); cbn [negb]; [| intros [= <-]; now destruct 1].
  destruct (get_ts meta) as [ts|x] eqn:Hts; cbn [bind]; [|discriminate].
  destruct (truthy ts) eqn:Ht; cbn [negb]; [| intros [= <-]; now destruct 1].
  rewrite (get_ts_find_timestamp meta ts Hts Ht). cbn [bind negb]. rewrite Ht.
  destruct (py_int ts) as [n|x]; cbn [bind]; [|discriminate].
  destruct (to_local zone n) as [dt|x]; cbn [bind]; [|discriminate].
  intros H _. eexists. split; [reflexivity|].
  unfold target_dir_of in H. rewrite <- app_assoc in H.
  exif_cases ex; try discriminate H; injection H as <-; reflexivity.
Qed.

Lemma audit_expects_archive_copy_witness :
  exists st' p,
    process_one pacific_offset io_ok ["processed"] [sidecar_0001] empty_state
      media_0001 = Ok st' /\
    Audit._get_expected_output_path pacific_offset ["processed"] media_0001 [sidecar_0001]
      = Ok (Some p) /\ files st' = [(p, media_0001)].
Proof.
  destruct (process_one pacific_offset io_ok ["processed"] [sidecar_0001]
              empty_state media_0001) as [st'|x] eqn:E; [|vm_compute in E; discriminate].
  destruct (audit_expects_archive_copy pacific_offset io_ok ["processed"]
              [sidecar_0001] media_0001 sidecar_0001 1 empty_state st'
              ltac:(vm_compute; reflexivity) ltac:(vm_compute; reflexivity) E)
    as (p & Hp & Hf).
  - vm_compute in E. injection E as <-. discriminate.
  - exists st', p. split; [reflexivity|]. split; [exact Hp | exact Hf].
Defined.

(** ** The resolvers compared *)

(** The auditor resolves like the pipeline for names of at most 45
    characters: there the truncation rule of neither resolver applies, and
    [_find_json_for_media] returns the sidecar [_match_json] returns (or
    none, or the same exception), after reading the same sidecar bodies.
    The divergence of claim C4 needs a name of more than 45 characters. *)
Theorem resolvers_agree_short_names (media : path) (js : list jfile) :
  (String.length (name media) + 5 <= JSON_LENGTH_LIMIT)%nat ->
  fst (Validator._find_json_for_media media js) = fst (Processor._match_json media js) /\
  snd (Validator._find_json_for_media media js)
    = bind (snd (Processor._match_json media js)) (fun o => Ok (option_map fst o)).
Proof.
  intros Hlen.
  assert (H2 : (JSON_LENGTH_LIMIT <? String.length (name media ++ ".json"))%nat = false)
    by (apply Nat.ltb_ge; rewrite length_app; cbn [String.length]; lia).
  unfold Validator._find_json_for_media, Processor._match_json.
  change (Validator.rule1 (name media) js) with (Processor.rule1 (name media) js).
  change (Validator.rule3 (name media) js) with (Processor.rule3 (name media) js).
  change (Validator.rule4 (name media) js) with (Processor.rule4 (name media) js).
  change (Validator.rule5 (name media) js) with (Processor.rule5 (name media) js).
  change (Validator.rule6 (name media) js) with (Processor.rule6 (name media) js).
  change (Validator.rule7 (name media) js) with (Processor.rule7 (name media) js).
  unfold Validator.rule2, Processor.rule2. rewrite H2.
  destruct (Processor.rule1 (name media) js); [split; reflexivity|].
  destruct (Processor.rule3 (name media) js); [split; reflexivity|].
  destruct (Processor.rule4 (name media) js); [split; reflexivity|].
  destruct (Processor.rule5 (name media) js); [split; reflexivity|].
  destruct (Processor.rule6 (name media) js); [split; reflexivity|].
  destruct (Processor.rule7 (name media) js); [split; reflexivity|].
  destruct (title_rule (name media) js) as [tr [[o|]|e]]; split; reflexivity.
Qed.

Lemma resolvers_agree_short_names_witness :
  (String.length (name media_0001) + 5 <= JSON_LENGTH_LIMIT)%nat /\
  snd (Validator._find_json_for_media media_0001 [sidecar_titled])
    = bind (snd (Processor._match_json media_0001 [sidecar_titled]))
           (fun o => Ok (option_map fst o)).
Proof.
  assert (H : (String.length (name media_0001) + 5 <= JSON_LENGTH_LIMIT)%nat)
    by (vm_compute; lia).
  split; [exact H|].
  exact (proj2 (resolvers_agree_short_names media_0001 [sidecar_titled] H)).
Defined.

Lemma lower_split (a b s : string) :
  lower s = (lower a ++ lower b)%string ->
  exists s1 s2, s = (s1 ++ s2)%string /\ lower s1 = lower a /\ lower s2 = lower b.
Proof.
  revert s. induction a as [|c a IH]; intros s H.
  - exists "", s. split; [reflexivity | split; [reflexivity | exact H]].
  - destruct s as [|c' s]; [discriminate|].
    cbn in H. injection H as Hc Hs.
    destruct (IH s Hs) as (s1 & s2 & -> & H1 & H2).
    exists (String c' s1), s2. split; [reflexivity|].
    split; [cbn; now rewrite Hc, H1 | exact H2].
Qed.

Lemma find_some_In {A} (f : A -> bool) (l : list A) (x : A) :
  In x l -> f x = true -> exists y, find f l = Some y.
Proof.
  induction l as [|y l IH]; intros Hin Hf; [destruct Hin|].
  cbn. destruct (f y) eqn:Fy; [now exists y|].
  destruct Hin as [-> | Hin]; [congruence | exact (IH Hin Hf)].
Qed.

(** [json_matcher.match_json]'s rule 1 ([^name.*\.json$], ignoring case)
    accepts every sidecar the pipeline's exact rule 1 accepts, for 7-bit
    ASCII names (outside them Python's [str.lower] and [re.IGNORECASE] fold
    differently, e.g. U+0130): whenever the pipeline finds a sidecar by
    rule 1, [match_json] returns one by rule 1 too, without reading any
    sidecar body or raising, whatever its length limit. *)
Theorem matcher_rule1_covers_pipeline_rule1 (media : path) (js : list jfile) (j : jfile)
    (limit : nat) :
  is_ascii7 (name media) = true ->
  Forall (fun j0 => is_ascii7 (jname j0) = true) js ->
  Processor.rule1 (name media) js = Some j ->
  exists j', Matcher.match_json media js limit = ([], Ok (Some (j', 1%nat))).
Proof.
  intros _ _ H. unfold Processor.rule1 in H.
  apply find_first in H as (pre & post & Hjs & Hj & _).
  unfold ci_eq in Hj. apply String.eqb_eq in Hj. rewrite lower_app in Hj.
  destruct (lower_split _ _ _ Hj) as (s1 & s2 & Hs & H1 & H2).
  assert (Hm : lit_dotstar_tail (name media) ".json" (jname j) = true).
  { rewrite Hs. apply (lit_dotstar_tail_json (name media) s1 "" s2); [exact H1 | exact H2 | reflexivity]. }
  destruct (find_some_In (fun j0 => lit_dotstar_tail (name media) ".json" (jname j0)) js j)
    as [j' Hj']; [rewrite Hjs; apply in_or_app; right; now left | exact Hm|].
  exists j'. unfold Matcher.match_json, Matcher.rule1. now rewrite Hj'.
Qed.

Lemma matcher_rule1_covers_pipeline_rule1_witness :
  Processor.rule1 (name media_0001) [sidecar_upper] = Some sidecar_upper /\
  exists j', Matcher.match_json media_0001 [sidecar_upper] 50 = ([], Ok (Some (j', 1%nat))).
Proof.
  assert (H : Processor.rule1 (name media_0001) [sidecar_upper] = Some sidecar_upper)
    by (vm_compute; reflexivity).
  split; [exact H|].
  exact (matcher_rule1_covers_pipeline_rule1 media_0001 [sidecar_upper] sidecar_upper 50
           eq_refl (Forall_cons sidecar_upper (eq_refl : is_ascii7 (jname sidecar_upper) = true) (Forall_nil _)) H).
Defined.

(** ** The exiftool command on malformed sidecars *)





